(** * bs-qt-ui: the fetch / extract / render / transform pipeline of [app.py]

    A shallow embedding of [EntityBox], [ScrollDisplay] and the configuration
    loader of [MainWindow], with the properties of the pipeline proved over
    it.  Widgets are reduced to the values they hold (the text of a line
    edit, the checked state of a button); the status bar and the network are
    an event log; what the code calls from outside, BeautifulSoup with
    [tag.text], [re.compile], [str.strip], [exec], the read-back of a Qt
    text document, the network and [json.load], are the fields of a
    [Library] record the code is run with. *)

From Stdlib Require Import ZArith Ascii String List Bool Lia.
From stdpp Require Import base option list strings gmap pretty.

Local Open Scope string_scope.
Local Open Scope Z_scope.

(** ** Python string operations used by the code *)

Module PyStr.

(** [str.isspace] on ASCII characters.  A string stands for ASCII text,
    or for the UTF-8 bytes of any text; on bytes above 127 this test says
    no, where Python decides by the code point.  The code under study
    never calls it: [str.strip] is a field of [Library], and the classes of
    [URL_RE], which use this test, are exact on ASCII strings (see
    [is_ascii]). *)
Definition is_space (c : ascii) : bool :=
  let n := nat_of_ascii c in
  ((9 <=? n) && (n <=? 13) || (28 <=? n) && (n <=? 32))%nat.

Fixpoint lstrip (s : string) : string :=
  match s with
  | EmptyString => EmptyString
  | String c s' => if is_space c then lstrip s' else s
  end.

Fixpoint rstrip (s : string) : string :=
  match s with
  | EmptyString => EmptyString
  | String c s' =>
      match rstrip s' with
      | EmptyString => if is_space c then EmptyString else String c EmptyString
      | t => String c t
      end
  end.

(** [s.strip()] on ASCII text: the instance of [str_strip] the examples
    run with. *)
Definition strip (s : string) : string := rstrip (lstrip s).

(** [s.startswith(p)] *)
Definition startswith (s p : string) : bool := String.prefix p s.

(** [s.index(sub)]: [None] stands for the [ValueError] Python raises. *)
Definition index (s sub : string) : option nat := String.index 0 sub s.

(** [sub in s] *)
Definition contains (sub s : string) : bool :=
  match String.index 0 sub s with Some _ => true | None => false end.

(** [s[i:j]] for non-negative [i], [j]. *)
Definition slice (s : string) (i j : nat) : string := String.substring i (j - i) s.

(** [s[i:]] *)
Definition slice_from (s : string) (i : nat) : string :=
  String.substring i (String.length s - i) s.

(** [sep.join(l)] *)
Fixpoint join (sep : string) (l : list string) : string :=
  match l with
  | [] => EmptyString
  | [x] => x
  | x :: rest => String.append x (String.append sep (join sep rest))
  end.

(** The double quote. *)
Definition DQ : string := String (ascii_of_nat 34) EmptyString.

(** The line feed, ["\n"] in the source. *)
Definition LF : string := String (ascii_of_nat 10) EmptyString.

End PyStr.

(** ** Regular expressions, as far as [URL_RE] and [re.sub] need them *)

Module Re.

Inductive regex : Type :=
| Fail
| Eps
| Class (p : ascii -> bool)
| Cat (r1 r2 : regex)
| Alt (r1 r2 : regex)
| Star (r : regex).

Definition Opt (r : regex) : regex := Alt r Eps.
Definition Plus (r : regex) : regex := Cat r (Star r).
Definition Chr (c : ascii) : regex := Class (fun d => Ascii.eqb c d).

Fixpoint Lit (s : string) : regex :=
  match s with
  | EmptyString => Eps
  | String c s' => Cat (Chr c) (Lit s')
  end.

Fixpoint nullable (r : regex) : bool :=
  match r with
  | Fail => false
  | Eps => true
  | Class _ => false
  | Cat r1 r2 => nullable r1 && nullable r2
  | Alt r1 r2 => nullable r1 || nullable r2
  | Star _ => true
  end.

Definition cat (r1 r2 : regex) : regex :=
  match r1, r2 with
  | Fail, _ => Fail
  | _, Fail => Fail
  | Eps, _ => r2
  | _, _ => Cat r1 r2
  end.

Definition alt (r1 r2 : regex) : regex :=
  match r1, r2 with
  | Fail, _ => r2
  | _, Fail => r1
  | _, _ => Alt r1 r2
  end.

(** Brzozowski derivative. *)
Fixpoint deriv (c : ascii) (r : regex) : regex :=
  match r with
  | Fail => Fail
  | Eps => Fail
  | Class p => if p c then Eps else Fail
  | Cat r1 r2 =>
      alt (cat (deriv c r1) r2) (if nullable r1 then deriv c r2 else Fail)
  | Alt r1 r2 => alt (deriv c r1) (deriv c r2)
  | Star r1 => cat (deriv c r1) (Star r1)
  end.

(** [bool(pattern.match(s))]: some prefix of [s] is matched. *)
Fixpoint matches (r : regex) (s : string) : bool :=
  nullable r ||
  match s with
  | EmptyString => false
  | String c s' => matches (deriv c r) s'
  end.

(** The character classes of the source, on the code points below 128. *)
Definition in_range (lo hi : nat) (c : ascii) : bool :=
  let n := nat_of_ascii c in ((lo <=? n) && (n <=? hi))%nat.

Definition digit : ascii -> bool := in_range 48 57.

Definition word (c : ascii) : bool :=
  in_range 97 122 c || in_range 65 90 c || digit c || Ascii.eqb c "_".

Definition nonspace (c : ascii) : bool := negb (PyStr.is_space c).

Definition one_of (s : string) (c : ascii) : bool :=
  existsb (Ascii.eqb c) (list_ascii_of_string s).

End Re.

(** [URL_RE = re.compile(r"(ftp|http|https)://(\w+:?\w*@)?(\S+)(:\d+)?(/|/([\w#!:.?+=&%@!-/]))?")] *)
Definition URL_RE : Re.regex :=
  let scheme := Re.Alt (Re.Lit "ftp") (Re.Alt (Re.Lit "http") (Re.Lit "https")) in
  let cred :=
    Re.Cat (Re.Plus (Re.Class Re.word))
      (Re.Cat (Re.Opt (Re.Chr ":")) (Re.Cat (Re.Star (Re.Class Re.word)) (Re.Chr "@"))) in
  let port := Re.Cat (Re.Chr ":") (Re.Plus (Re.Class Re.digit)) in
  let path_char (c : ascii) : bool :=
    Re.word c || Re.one_of "#!:.?+=&%@" c || Re.in_range 33 47 c in
  let path := Re.Alt (Re.Chr "/") (Re.Cat (Re.Chr "/") (Re.Class path_char)) in
  Re.Cat scheme
    (Re.Cat (Re.Lit "://")
       (Re.Cat (Re.Opt cred)
          (Re.Cat (Re.Plus (Re.Class Re.nonspace))
             (Re.Cat (Re.Opt port) (Re.Opt path))))).

(** ** The parsed document

    What BeautifulSoup hands to the code: a forest of tags and strings.  The
    parser, the pretty-printer and the serialiser belong to the library and
    are parameters below. *)

Module Soup.

#[warnings="-register-all"]
Inductive node : Type :=
| Tag (name : string) (attrs : list (string * string)) (children : list node)
| NavigableString (s : string).

(** The [BeautifulSoup] object: its top-level children. *)
Definition soup : Type := list node.

(** [tag.name] *)
Definition name (n : node) : string :=
  match n with
  | Tag nm _ _ => nm
  | NavigableString _ => EmptyString
  end.

(** The tags at and below [n], in document order. *)
Fixpoint tags (n : node) : list node :=
  match n with
  | Tag _ _ ch => n :: flat_map tags ch
  | NavigableString _ => []
  end.

(** [soup.find_all()] *)
Definition find_all (doc : soup) : list node := flat_map tags doc.

(** All the strings below a node, concatenated: what bs4 gives as
    [tag.text] when no script, style or comment sits below another tag.
    The instance of [tag_text] the examples run with. *)
Fixpoint text (n : node) : string :=
  match n with
  | Tag _ _ ch => fold_right String.append EmptyString (map text ch)
  | NavigableString s => s
  end.

(** The same for a whole document: the instance of [soup_text] the
    examples run with. *)
Definition soup_text (doc : soup) : string :=
  fold_right String.append EmptyString (map text doc).

End Soup.

(** ** Exceptions, results of calls, events *)

Inductive exn_class : Type :=
| ValueError
| TypeError
| AttributeError
| UnboundLocalError
| FileNotFoundError
| OtherException      (* any other subclass of [Exception] *)
| NotAnException.     (* a [BaseException] outside [Exception]: SystemExit, KeyboardInterrupt *)

Record exn : Type := { exn_kind : exn_class; exn_repr : string }.

(** [isinstance(e, Exception)] *)
Definition is_Exception (e : exn) : bool :=
  match exn_kind e with
  | NotAnException => false
  | _ => true
  end.

(** [isinstance(e, FileNotFoundError)] *)
Definition is_FileNotFoundError (e : exn) : bool :=
  match exn_kind e with
  | FileNotFoundError => true
  | _ => false
  end.

(** What a call of a transform does to the label: the text it returns, or
    the [repr] of what was raised (by the function, or by [setPlainText] on
    a value that is not a string). *)
Inductive call_result : Type :=
| Returns (text : string)
| Raises (repr : string).

Definition transform : Type := string -> call_result.

(** [resp] of [async_fetch(url).result()] *)
Record response : Type := { resp_status_code : Z; resp_text : string }.

(** [repr(resp)] *)
Definition response_repr (r : response) : string :=
  "<Response [" ++ pretty (resp_status_code r) ++ "]>".

(** What the outside sees: messages on the status bar, requests on the network. *)
Inductive event : Type :=
| Status (msg : string)
| NetGet (url : string).

(** A value of a persisted record. *)
Inductive cfg_value : Type :=
| VStr (s : string)
| VBool (b : bool)
| VInt (n : Z).

(** ** The libraries the code calls *)

Record Library : Type := {
  (** a compiled pattern, and [re.compile], which raises [re.error] *)
  pattern : Type;
  re_compile : string -> exn + pattern;
  (** whether [find_all(class_=p)] selects the tag *)
  class_matches : pattern -> Soup.node -> bool;
  (** [BeautifulSoup(markup, 'lxml')], [soup.prettify()], [str(tag)] *)
  BeautifulSoup : string -> Soup.soup;
  prettify : Soup.soup -> string;
  str_tag : Soup.node -> string;
  (** [tag.text] and [soup.text]: bs4 decides which strings count *)
  tag_text : Soup.node -> string;
  soup_text : Soup.soup -> string;
  (** [QTextDocument.toPlainText] of a document set from markup by
      [setText], and of one set from plain text by [setPlainText] *)
  html_to_plain : string -> string;
  read_plain : string -> string;
  (** [str.strip] *)
  str_strip : string -> string;
  (** [exec(code)] followed by [locals()[name]] *)
  exec_def : string -> string -> exn + transform;
  (** [async_fetch(url).result()] *)
  async_fetch : string -> exn + response;
  (** [json.load]: the records of the object in key order, [None] when it raises *)
  json_load : string -> option (list (string * gmap string cfg_value));
}.

(** ** Computations that mutate an object and may raise

    The state reached when an exception is raised is kept: what Python
    assigned before the [raise] stays assigned. *)

Inductive outcome (A : Type) : Type :=
| Done (a : A)
| Raise (e : exn).
Arguments Done {A} a.
Arguments Raise {A} e.

Definition M (S A : Type) : Type := S -> outcome A * S.

#[global] Instance M_ret {S} : MRet (M S) := fun A a s => (Done a, s).

#[global] Instance M_bind {S} : MBind (M S) := fun A B k m s =>
  match m s with
  | (Done a, s') => k a s'
  | (Raise e, s') => (Raise e, s')
  end.

Definition get {S} : M S S := fun s => (Done s, s).
Definition modify {S} (f : S -> S) : M S unit := fun s => (Done tt, f s).
Definition raise {S A} (e : exn) : M S A := fun s => (Raise e, s).

(** [try: body / except <caught> as e: handler e] *)
Definition try_except {S A} (body : M S A) (caught : exn -> bool) (handler : exn -> M S A) : M S A :=
  fun s =>
    match body s with
    | (Done a, s') => (Done a, s')
    | (Raise e, s') => if caught e then handler e s' else (Raise e, s')
    end.

Definition when {S} (b : bool) (m : M S unit) : M S unit := if b then m else mret tt.

Fixpoint repeatM {S} (n : nat) (m : M S unit) : M S unit :=
  match n with
  | O => mret tt
  | Datatypes.S k => m;; repeatM k m
  end.

(** An argument that must be a string: [None] makes the callee raise [TypeError]. *)
Definition require_str {S} (v : option string) : M S string :=
  match v with
  | Some s => mret s
  | None => raise {| exn_kind := TypeError; exn_repr := "TypeError()" |}
  end.

(** ** [ScrollDisplay] *)

(** The document of the read-only text field: set from markup by [setText],
    or from plain text by [setPlainText]. *)
Inductive label_content : Type :=
| RichText (html : string)
| PlainText (s : string).

Record ScrollDisplay : Type := {
  output_option : Z;
  display_func_transform : option transform;
  label : label_content;
}.

Definition set_output_option (v : Z) (d : ScrollDisplay) : ScrollDisplay :=
  {| output_option := v;
     display_func_transform := display_func_transform d;
     label := label d |}.

Definition set_display_func_transform (f : option transform) (d : ScrollDisplay) : ScrollDisplay :=
  {| output_option := output_option d;
     display_func_transform := f;
     label := label d |}.

Definition set_label (c : label_content) (d : ScrollDisplay) : ScrollDisplay :=
  {| output_option := output_option d;
     display_func_transform := display_func_transform d;
     label := c |}.

(** [ScrollDisplay.__init__] *)
Definition ScrollDisplay_init : ScrollDisplay :=
  {| output_option := 0; display_func_transform := None; label := PlainText EmptyString |}.

(** [re.sub('[\n| ]+', '\n', s)]: the class holds the line feed, the
    vertical bar and the space. *)
Definition clean_class (c : ascii) : bool :=
  Ascii.eqb c (ascii_of_nat 10) || Ascii.eqb c "|" || Ascii.eqb c " ".

(** [re.sub] for a pattern [[cls]+]: every maximal run of characters of the
    class is replaced by [repl]; [in_run] tells that the run has begun. *)
Fixpoint re_sub_runs (cls : ascii -> bool) (repl : string) (in_run : bool) (s : string) : string :=
  match s with
  | EmptyString => EmptyString
  | String c s' =>
      if cls c then
        if in_run then re_sub_runs cls repl true s'
        else String.append repl (re_sub_runs cls repl true s')
      else String c (re_sub_runs cls repl false s')
  end.

Definition re_sub_clean (s : string) : string :=
  re_sub_runs clean_class PyStr.LF false s.

(** ** [EntityBox] *)

Record EntityBox : Type := {
  self_id : N;                          (* id(self) *)
  (* data *)
  status_code : Z;
  resp_raw : option string;
  resp_soup : option Soup.soup;
  resp_html_full : option string;
  resp_html : option string;
  is_with_css : bool;
  func_transform : option transform;
  is_with_transform : bool;
  (* widgets *)
  display : ScrollDisplay;
  input_url : string;                   (* input_url.text() *)
  input_filter : string;                (* input_filter.text() *)
  input_filter_enabled : bool;
  input_transform : string;             (* input_transform.document().toPlainText() *)
  transform_row_visible : bool;         (* row 4 of the form *)
  transform_receivers : nat;            (* slots connected to input_transform.textChanged *)
  btn_fetch_text : string;
  btn_transform_checked : bool;
}.

(** [EntityBox.__init__] *)
Definition EntityBox_init (id : N) : EntityBox :=
  {| self_id := id;
     status_code := -1;
     resp_raw := None;
     resp_soup := None;
     resp_html_full := None;
     resp_html := None;
     is_with_css := true;
     func_transform := None;
     is_with_transform := false;
     display := ScrollDisplay_init;
     input_url := "https://";
     input_filter := EmptyString;
     input_filter_enabled := false;
     input_transform := EmptyString;
     transform_row_visible := false;
     transform_receivers := 0;
     btn_fetch_text := "Fetch";
     btn_transform_checked := false |}.

Definition set_status_code (v : Z) (e : EntityBox) : EntityBox :=
  {| self_id := self_id e; status_code := v; resp_raw := resp_raw e;
     resp_soup := resp_soup e; resp_html_full := resp_html_full e; resp_html := resp_html e;
     is_with_css := is_with_css e; func_transform := func_transform e;
     is_with_transform := is_with_transform e; display := display e;
     input_url := input_url e; input_filter := input_filter e;
     input_filter_enabled := input_filter_enabled e; input_transform := input_transform e;
     transform_row_visible := transform_row_visible e;
     transform_receivers := transform_receivers e; btn_fetch_text := btn_fetch_text e;
     btn_transform_checked := btn_transform_checked e |}.

Definition set_resp_raw (v : option string) (e : EntityBox) : EntityBox :=
  {| self_id := self_id e; status_code := status_code e; resp_raw := v;
     resp_soup := resp_soup e; resp_html_full := resp_html_full e; resp_html := resp_html e;
     is_with_css := is_with_css e; func_transform := func_transform e;
     is_with_transform := is_with_transform e; display := display e;
     input_url := input_url e; input_filter := input_filter e;
     input_filter_enabled := input_filter_enabled e; input_transform := input_transform e;
     transform_row_visible := transform_row_visible e;
     transform_receivers := transform_receivers e; btn_fetch_text := btn_fetch_text e;
     btn_transform_checked := btn_transform_checked e |}.

Definition set_resp_soup (v : option Soup.soup) (e : EntityBox) : EntityBox :=
  {| self_id := self_id e; status_code := status_code e; resp_raw := resp_raw e;
     resp_soup := v; resp_html_full := resp_html_full e; resp_html := resp_html e;
     is_with_css := is_with_css e; func_transform := func_transform e;
     is_with_transform := is_with_transform e; display := display e;
     input_url := input_url e; input_filter := input_filter e;
     input_filter_enabled := input_filter_enabled e; input_transform := input_transform e;
     transform_row_visible := transform_row_visible e;
     transform_receivers := transform_receivers e; btn_fetch_text := btn_fetch_text e;
     btn_transform_checked := btn_transform_checked e |}.

Definition set_resp_html_full (v : option string) (e : EntityBox) : EntityBox :=
  {| self_id := self_id e; status_code := status_code e; resp_raw := resp_raw e;
     resp_soup := resp_soup e; resp_html_full := v; resp_html := resp_html e;
     is_with_css := is_with_css e; func_transform := func_transform e;
     is_with_transform := is_with_transform e; display := display e;
     input_url := input_url e; input_filter := input_filter e;
     input_filter_enabled := input_filter_enabled e; input_transform := input_transform e;
     transform_row_visible := transform_row_visible e;
     transform_receivers := transform_receivers e; btn_fetch_text := btn_fetch_text e;
     btn_transform_checked := btn_transform_checked e |}.

Definition set_resp_html (v : option string) (e : EntityBox) : EntityBox :=
  {| self_id := self_id e; status_code := status_code e; resp_raw := resp_raw e;
     resp_soup := resp_soup e; resp_html_full := resp_html_full e; resp_html := v;
     is_with_css := is_with_css e; func_transform := func_transform e;
     is_with_transform := is_with_transform e; display := display e;
     input_url := input_url e; input_filter := input_filter e;
     input_filter_enabled := input_filter_enabled e; input_transform := input_transform e;
     transform_row_visible := transform_row_visible e;
     transform_receivers := transform_receivers e; btn_fetch_text := btn_fetch_text e;
     btn_transform_checked := btn_transform_checked e |}.

Definition set_is_with_css (v : bool) (e : EntityBox) : EntityBox :=
  {| self_id := self_id e; status_code := status_code e; resp_raw := resp_raw e;
     resp_soup := resp_soup e; resp_html_full := resp_html_full e; resp_html := resp_html e;
     is_with_css := v; func_transform := func_transform e;
     is_with_transform := is_with_transform e; display := display e;
     input_url := input_url e; input_filter := input_filter e;
     input_filter_enabled := input_filter_enabled e; input_transform := input_transform e;
     transform_row_visible := transform_row_visible e;
     transform_receivers := transform_receivers e; btn_fetch_text := btn_fetch_text e;
     btn_transform_checked := btn_transform_checked e |}.

Definition set_func_transform (v : option transform) (e : EntityBox) : EntityBox :=
  {| self_id := self_id e; status_code := status_code e; resp_raw := resp_raw e;
     resp_soup := resp_soup e; resp_html_full := resp_html_full e; resp_html := resp_html e;
     is_with_css := is_with_css e; func_transform := v;
     is_with_transform := is_with_transform e; display := display e;
     input_url := input_url e; input_filter := input_filter e;
     input_filter_enabled := input_filter_enabled e; input_transform := input_transform e;
     transform_row_visible := transform_row_visible e;
     transform_receivers := transform_receivers e; btn_fetch_text := btn_fetch_text e;
     btn_transform_checked := btn_transform_checked e |}.

Definition set_is_with_transform (v : bool) (e : EntityBox) : EntityBox :=
  {| self_id := self_id e; status_code := status_code e; resp_raw := resp_raw e;
     resp_soup := resp_soup e; resp_html_full := resp_html_full e; resp_html := resp_html e;
     is_with_css := is_with_css e; func_transform := func_transform e;
     is_with_transform := v; display := display e;
     input_url := input_url e; input_filter := input_filter e;
     input_filter_enabled := input_filter_enabled e; input_transform := input_transform e;
     transform_row_visible := transform_row_visible e;
     transform_receivers := transform_receivers e; btn_fetch_text := btn_fetch_text e;
     btn_transform_checked := btn_transform_checked e |}.

Definition set_display (v : ScrollDisplay) (e : EntityBox) : EntityBox :=
  {| self_id := self_id e; status_code := status_code e; resp_raw := resp_raw e;
     resp_soup := resp_soup e; resp_html_full := resp_html_full e; resp_html := resp_html e;
     is_with_css := is_with_css e; func_transform := func_transform e;
     is_with_transform := is_with_transform e; display := v;
     input_url := input_url e; input_filter := input_filter e;
     input_filter_enabled := input_filter_enabled e; input_transform := input_transform e;
     transform_row_visible := transform_row_visible e;
     transform_receivers := transform_receivers e; btn_fetch_text := btn_fetch_text e;
     btn_transform_checked := btn_transform_checked e |}.

Definition set_input_url (v : string) (e : EntityBox) : EntityBox :=
  {| self_id := self_id e; status_code := status_code e; resp_raw := resp_raw e;
     resp_soup := resp_soup e; resp_html_full := resp_html_full e; resp_html := resp_html e;
     is_with_css := is_with_css e; func_transform := func_transform e;
     is_with_transform := is_with_transform e; display := display e;
     input_url := v; input_filter := input_filter e;
     input_filter_enabled := input_filter_enabled e; input_transform := input_transform e;
     transform_row_visible := transform_row_visible e;
     transform_receivers := transform_receivers e; btn_fetch_text := btn_fetch_text e;
     btn_transform_checked := btn_transform_checked e |}.

Definition set_input_filter (v : string) (e : EntityBox) : EntityBox :=
  {| self_id := self_id e; status_code := status_code e; resp_raw := resp_raw e;
     resp_soup := resp_soup e; resp_html_full := resp_html_full e; resp_html := resp_html e;
     is_with_css := is_with_css e; func_transform := func_transform e;
     is_with_transform := is_with_transform e; display := display e;
     input_url := input_url e; input_filter := v;
     input_filter_enabled := input_filter_enabled e; input_transform := input_transform e;
     transform_row_visible := transform_row_visible e;
     transform_receivers := transform_receivers e; btn_fetch_text := btn_fetch_text e;
     btn_transform_checked := btn_transform_checked e |}.

Definition set_input_filter_enabled (v : bool) (e : EntityBox) : EntityBox :=
  {| self_id := self_id e; status_code := status_code e; resp_raw := resp_raw e;
     resp_soup := resp_soup e; resp_html_full := resp_html_full e; resp_html := resp_html e;
     is_with_css := is_with_css e; func_transform := func_transform e;
     is_with_transform := is_with_transform e; display := display e;
     input_url := input_url e; input_filter := input_filter e;
     input_filter_enabled := v; input_transform := input_transform e;
     transform_row_visible := transform_row_visible e;
     transform_receivers := transform_receivers e; btn_fetch_text := btn_fetch_text e;
     btn_transform_checked := btn_transform_checked e |}.

Definition set_input_transform (v : string) (e : EntityBox) : EntityBox :=
  {| self_id := self_id e; status_code := status_code e; resp_raw := resp_raw e;
     resp_soup := resp_soup e; resp_html_full := resp_html_full e; resp_html := resp_html e;
     is_with_css := is_with_css e; func_transform := func_transform e;
     is_with_transform := is_with_transform e; display := display e;
     input_url := input_url e; input_filter := input_filter e;
     input_filter_enabled := input_filter_enabled e; input_transform := v;
     transform_row_visible := transform_row_visible e;
     transform_receivers := transform_receivers e; btn_fetch_text := btn_fetch_text e;
     btn_transform_checked := btn_transform_checked e |}.

Definition set_transform_row_visible (v : bool) (e : EntityBox) : EntityBox :=
  {| self_id := self_id e; status_code := status_code e; resp_raw := resp_raw e;
     resp_soup := resp_soup e; resp_html_full := resp_html_full e; resp_html := resp_html e;
     is_with_css := is_with_css e; func_transform := func_transform e;
     is_with_transform := is_with_transform e; display := display e;
     input_url := input_url e; input_filter := input_filter e;
     input_filter_enabled := input_filter_enabled e; input_transform := input_transform e;
     transform_row_visible := v;
     transform_receivers := transform_receivers e; btn_fetch_text := btn_fetch_text e;
     btn_transform_checked := btn_transform_checked e |}.

Definition set_transform_receivers (v : nat) (e : EntityBox) : EntityBox :=
  {| self_id := self_id e; status_code := status_code e; resp_raw := resp_raw e;
     resp_soup := resp_soup e; resp_html_full := resp_html_full e; resp_html := resp_html e;
     is_with_css := is_with_css e; func_transform := func_transform e;
     is_with_transform := is_with_transform e; display := display e;
     input_url := input_url e; input_filter := input_filter e;
     input_filter_enabled := input_filter_enabled e; input_transform := input_transform e;
     transform_row_visible := transform_row_visible e;
     transform_receivers := v; btn_fetch_text := btn_fetch_text e;
     btn_transform_checked := btn_transform_checked e |}.

Definition set_btn_fetch_text (v : string) (e : EntityBox) : EntityBox :=
  {| self_id := self_id e; status_code := status_code e; resp_raw := resp_raw e;
     resp_soup := resp_soup e; resp_html_full := resp_html_full e; resp_html := resp_html e;
     is_with_css := is_with_css e; func_transform := func_transform e;
     is_with_transform := is_with_transform e; display := display e;
     input_url := input_url e; input_filter := input_filter e;
     input_filter_enabled := input_filter_enabled e; input_transform := input_transform e;
     transform_row_visible := transform_row_visible e;
     transform_receivers := transform_receivers e; btn_fetch_text := v;
     btn_transform_checked := btn_transform_checked e |}.

Definition set_btn_transform_checked (v : bool) (e : EntityBox) : EntityBox :=
  {| self_id := self_id e; status_code := status_code e; resp_raw := resp_raw e;
     resp_soup := resp_soup e; resp_html_full := resp_html_full e; resp_html := resp_html e;
     is_with_css := is_with_css e; func_transform := func_transform e;
     is_with_transform := is_with_transform e; display := display e;
     input_url := input_url e; input_filter := input_filter e;
     input_filter_enabled := input_filter_enabled e; input_transform := input_transform e;
     transform_row_visible := transform_row_visible e;
     transform_receivers := transform_receivers e; btn_fetch_text := btn_fetch_text e;
     btn_transform_checked := v |}.

(** An entity at work: the object and what it has sent to the status bar
    and the network so far (latest last). *)
Record Run : Type := { self : EntityBox; events : list event }.

Definition on_self (f : EntityBox -> EntityBox) : M Run unit :=
  modify (fun r => {| self := f (self r); events := events r |}).

Definition emit (ev : event) : M Run unit :=
  modify (fun r => {| self := self r; events := events r ++ [ev] |}).

(** Runs a method of the display on [self.display]. *)
Definition on_display {A} (m : M ScrollDisplay A) : M Run A :=
  fun r =>
    let (o, d) := m (display (self r)) in
    (o, {| self := set_display d (self r); events := events r |}).

Fixpoint for_each {S A} (l : list A) (body : A -> M S unit) : M S unit :=
  match l with
  | [] => mret tt
  | x :: rest => body x;; for_each rest body
  end.

(** [EntityBox.TAG_EXCLUDE] *)
Definition TAG_EXCLUDE : list string :=
  ["script"; "meta"; "head"; "noscript"; "svg"; "html"; "aside"; "main"].

(** [x in l] for a list of strings *)
Definition str_in (x : string) (l : list string) : bool := existsb (String.eqb x) l.

Definition err_msg : string :=
  "Transformation must be a Python function starting with def f(x): and returns a value, input is malformed".

Definition invalid_url_msg : string :=
  "The provided URL is invalid. It must starts with [ http(s):// ].".

(** Values of a persisted record as the code uses them. *)
Definition cfg_str (v : cfg_value) : option string :=
  match v with
  | VStr s => Some s
  | _ => None
  end.

(** Truth value, as [if] takes it. *)
Definition cfg_truthy (v : cfg_value) : bool :=
  match v with
  | VBool b => b
  | VInt n => negb (n =? 0)
  | VStr s => negb (String.eqb s EmptyString)
  end.

(** The value as [== 0], [== 1], [== 2] see it ([True == 1]); a string
    equals none of them and is kept as [-1]. *)
Definition cfg_int (v : cfg_value) : Z :=
  match v with
  | VInt n => n
  | VBool b => Z.b2z b
  | VStr _ => -1
  end.

Section Pipeline.

Variable L : Library.

(** *** [ScrollDisplay] methods *)

(** [self.label.document().toPlainText()] *)
Definition toPlainText (c : label_content) : string :=
  match c with
  | RichText html => html_to_plain L html
  | PlainText s => read_plain L s
  end.

(** [ScrollDisplay.set_transform] *)
Definition set_transform (func : option transform) : M ScrollDisplay unit :=
  modify (set_display_func_transform func).

(** [ScrollDisplay.set_text] *)
Definition set_text (html : option string) : M ScrollDisplay unit :=
  d ← get;
  (if output_option d =? 0 then
     s ← require_str html;
     modify (set_label (RichText s))
   else if output_option d =? 1 then
     s ← require_str html;
     let plain_soup := BeautifulSoup L s in
     let body := re_sub_clean (soup_text L plain_soup) in
     modify (set_label (PlainText body))
   else if output_option d =? 2 then
     s ← require_str html;
     modify (set_label (PlainText s))
   else mret tt);;
  d ← get;
  match display_func_transform d with
  | Some f =>
      match f (toPlainText (label d)) with
      | Returns text => modify (set_label (PlainText text))
      | Raises repr => modify (set_label (PlainText repr))
      end
  | None => mret tt
  end.

(** *** [EntityBox] methods *)

(** [EntityBox.set_status]: forwarded to the status bar of the window. *)
Definition set_status (msg : string) : M Run unit := emit (Status msg).

(** The loop of [requests_extract], shared by its two branches: [found]
    are the tags iterated over and [keep] is the outer condition. *)
Definition collect (keep : Soup.node -> bool) (found : list Soup.node) : list string :=
  fold_left
    (fun repo_html tag =>
       if keep tag then
         if negb (str_in (str_tag L tag) repo_html)
         then (repo_html ++ [str_tag L tag])%list
         else repo_html
       else repo_html)
    found [].

Definition not_excluded (tag : Soup.node) : bool :=
  negb (str_in (Soup.name tag) TAG_EXCLUDE).

(** [repo_html] of the branch [if self.is_with_css]: the loop over
    [find_all(class_=p)]. *)
Definition by_class (p : pattern L) (doc : Soup.soup) : list string :=
  collect not_excluded (filter (fun tag => class_matches L p tag = true) (Soup.find_all doc)).

(** [repo_html] of the [else] branch: the loop over [find_all()]. *)
Definition by_text (flt : string) (doc : Soup.soup) : list string :=
  collect (fun tag => not_excluded tag && PyStr.contains flt (tag_text L tag))
    (Soup.find_all doc).

(** [self.resp_soup.find_all]: on [None] the attribute lookup raises. *)
Definition soup_of (v : option Soup.soup) : M Run Soup.soup :=
  match v with
  | Some doc => mret doc
  | None =>
      raise {| exn_kind := AttributeError;
               exn_repr :=
                 "AttributeError(" ++ PyStr.DQ ++ "'NoneType' object has no attribute 'find_all'"
                 ++ PyStr.DQ ++ ")" |}
  end.

Definition compile_pattern (p : string) : M Run (pattern L) :=
  match re_compile L p with
  | inr c => mret c
  | inl e => raise e
  end.

(** [EntityBox.requests_extract] *)
Definition requests_extract : M Run unit :=
  r ← get;
  let e := self r in
  if negb (status_code e =? 200) then mret tt
  else if (String.length (input_filter e) =? 0)%nat then
    on_self (set_resp_html (resp_html_full e))
  else
    resp_html_sub ←
      try_except
        (if is_with_css e then
           doc ← soup_of (resp_soup e);
           p ← compile_pattern (input_filter e);
           let repo_html := by_class p doc in
           mret (PyStr.join ("<br>" ++ PyStr.LF) repo_html)
         else
           doc ← soup_of (resp_soup e);
           let repo_html := by_text (input_filter e) doc in
           mret (PyStr.join ("<br>" ++ PyStr.LF) repo_html))
        (fun _ => true)
        (fun ex => mret (exn_repr ex));
    on_self (set_resp_html (Some resp_html_sub)).

(** [EntityBox.send_to_display] *)
Definition send_to_display : M Run unit :=
  r ← get;
  if negb (status_code (self r) =? 200) then mret tt
  else
    requests_extract;;
    r ← get;
    on_display (set_text (resp_html (self r))).

(** [EntityBox.unset_display_transform] *)
Definition unset_display_transform : M Run unit :=
  on_self (set_func_transform None);;
  on_display (set_transform None).

(** [EntityBox.set_display_transform] *)
Definition set_display_transform : M Run unit :=
  set_status "Transform set and ready.";;
  r ← get;
  on_display (set_transform (func_transform (self r))).

(** [fn.index(sub)] *)
Definition str_index (s sub : string) : M Run nat :=
  match PyStr.index s sub with
  | Some i => mret i
  | None =>
      raise {| exn_kind := ValueError; exn_repr := "ValueError('substring not found')" |}
  end.

(** The textual check on the trimmed source. *)
Definition shape_ok (fn : string) : bool :=
  PyStr.startswith fn "def" && PyStr.contains "return" fn.

(** The source handed to [exec], built from the trimmed input. *)
Definition reconstruct (fn_sig_new fn_args fn_body : string) : string :=
  "def " ++ fn_sig_new ++ "(" ++ fn_args ++ "):" ++ PyStr.LF ++ fn_body.

(** [EntityBox.get_from_input_and_set_transform] *)
Definition get_from_input_and_set_transform : M Run unit :=
  r ← get;
  let fn := input_transform (self r) in
  try_except
    (let fn := str_strip L fn in
     when (negb (PyStr.startswith fn "def") || negb (PyStr.contains "return" fn))
       (set_status err_msg);;
     let fn_sig_new := "_F" ++ pretty (self_id (self r)) in
     i ← str_index fn "(";
     j ← str_index fn ")";
     let fn_args := PyStr.slice fn (i + 1) j in
     k ← str_index fn PyStr.LF;
     let fn_body := PyStr.slice_from fn (k + 1) in
     let fn_reconstructed := reconstruct fn_sig_new fn_args fn_body in
     f ← match exec_def L fn_reconstructed fn_sig_new with
         | inr f => mret f
         | inl ex => raise ex
         end;
     on_self (set_func_transform (Some f));;
     set_display_transform;;
     send_to_display)
    is_Exception
    (fun _ =>
       set_status err_msg;;
       on_self (set_func_transform (Some (fun x => Returns x)))).

(** [EntityBox.enable_transform] *)
Definition enable_transform (enable : bool) : M Run unit :=
  if enable then
    on_self (set_is_with_transform true);;
    on_self (set_transform_row_visible true);;
    on_self (fun e => set_transform_receivers (Datatypes.S (transform_receivers e)) e);;
    get_from_input_and_set_transform;;
    set_status "Transform enabled."
  else
    on_self (set_is_with_transform false);;
    on_self (set_transform_row_visible false);;
    on_self (fun e =>
               set_transform_receivers
                 (if (0 <? transform_receivers e)%nat then 0%nat else transform_receivers e) e);;
    unset_display_transform;;
    set_status "Transform disabled.".

(** [EntityBox.requests_get] *)
Definition requests_get : M Run unit :=
  r ← get;
  let url := input_url (self r) in
  if negb (Re.matches URL_RE url) then
    set_status invalid_url_msg
  else
    emit (NetGet url);;
    match async_fetch L url with
    | inl ex => set_status (exn_repr ex)
    | inr resp =>
        if resp_status_code resp =? 200 then
          enable_transform false;;
          on_self (set_status_code (resp_status_code resp));;
          on_self (set_resp_raw (Some (resp_text resp)));;
          let soup := BeautifulSoup L (resp_text resp) in
          on_self (set_resp_soup (Some soup));;
          on_self (set_resp_html_full (Some (prettify L soup)));;
          on_self (set_btn_fetch_text "Re-fetch");;
          on_self (set_input_filter_enabled true);;
          send_to_display;;
          set_status "URL Fetch succeeded."
        else
          set_status (response_repr resp)
    end.

(** [EntityBox.to_config] *)
Definition to_config (e : EntityBox) : gmap string cfg_value :=
  <["url" := VStr (input_url e)]>
  (<["filter" := VStr (input_filter e)]>
  (<["is_with_css" := VBool (is_with_css e)]>
  (<["output_option" := VInt (output_option (display e))]>
  (<["is_with_transform" := VBool (is_with_transform e)]>
  (<["transform" :=
       VStr (match func_transform e with
             | Some _ => input_transform e
             | None => EmptyString
             end)]> ∅))))).

(** [self.input_filter.setText(t)]: [textChanged] is connected to
    [send_to_display] and fires when the text differs. *)
Definition input_filter_setText (t : string) : M Run unit :=
  r ← get;
  if String.eqb (input_filter (self r)) t then mret tt
  else on_self (set_input_filter t);; send_to_display.

(** [self.input_transform.setPlainText(t)]: every slot connected to
    [textChanged] by [enable_transform] runs. *)
Definition input_transform_setPlainText (t : string) : M Run unit :=
  on_self (set_input_transform t);;
  r ← get;
  repeatM (transform_receivers (self r)) get_from_input_and_set_transform.

(** [cfg.get(key, default)] *)
Definition cfg_get (cfg : gmap string cfg_value) (key : string) (dflt : cfg_value) : cfg_value :=
  default dflt (cfg !! key).

(** [EntityBox.from_config]; the radio buttons it checks mirror
    [is_with_css] and [output_option] and are left out. *)
Definition from_config (cfg : gmap string cfg_value) : M Run unit :=
  url ← require_str (cfg_str (cfg_get cfg "url" (VStr EmptyString)));
  on_self (set_input_url url);;
  flt ← require_str (cfg_str (cfg_get cfg "filter" (VStr EmptyString)));
  input_filter_setText flt;;
  on_self (set_is_with_css (cfg_truthy (cfg_get cfg "is_with_css" (VBool true))));;
  on_self (fun e =>
             set_display
               (set_output_option (cfg_int (cfg_get cfg "output_option" (VInt 0))) (display e)) e);;
  on_self (set_is_with_transform (cfg_truthy (cfg_get cfg "is_with_transform" (VBool false))));;
  src ← require_str (cfg_str (cfg_get cfg "transform" (VStr EmptyString)));
  input_transform_setPlainText src;;
  requests_get;;
  r ← get;
  if is_with_transform (self r) then
    on_self (set_btn_transform_checked true);;
    enable_transform true
  else mret tt.

End Pipeline.

(** ** [MainWindow]: the collection of entities and the configuration loader *)

Record MainWindow : Type := {
  list_entity_box : list EntityBox;
  status_bar : list event;              (* what the window has shown and fetched, latest last *)
  next_id : N;                          (* the identity the next object gets *)
}.

Definition corrupted_msg : string :=
  "config.json may be corrupted. Try recreating proper file with Save Config.".

Definition not_found_msg : string :=
  "config.json not found in current working directory. Check if file exists.".

(** [MainWindow.set_status] *)
Definition window_set_status (msg : string) : M MainWindow unit :=
  modify (fun w =>
            {| list_entity_box := list_entity_box w;
               status_bar := status_bar w ++ [Status msg];
               next_id := next_id w |}).

(** [MainWindow.add_display] *)
Definition add_display : M MainWindow unit :=
  modify (fun w =>
            {| list_entity_box := list_entity_box w ++ [EntityBox_init (next_id w)];
               status_bar := status_bar w;
               next_id := N.succ (next_id w) |});;
  window_set_status "Added new widget".

(** [MainWindow.rmv_display] *)
Definition rmv_display : M MainWindow unit :=
  w ← get;
  if (0 <? length (list_entity_box w))%nat then
    modify (fun w =>
              {| list_entity_box := removelast (list_entity_box w);
                 status_bar := status_bar w;
                 next_id := next_id w |});;
    window_set_status "Removed bottom most widget"
  else
    window_set_status "Cannot remove widget".

(** [MainWindow.rmv_all_display] *)
Definition rmv_all_display : M MainWindow unit :=
  w ← get;
  let num_of_eb := length (list_entity_box w) in
  repeatM num_of_eb rmv_display;;
  window_set_status "Removed all widgets".

(** Runs a method on the entity [add_display] has just returned, the last
    of the collection; its messages go to the status bar of the window. *)
Definition on_last_entity (m : M Run unit) : M MainWindow unit :=
  fun w =>
    match last (list_entity_box w) with
    | None => (Done tt, w)
    | Some eb =>
        let (o, r) := m {| self := eb; events := status_bar w |} in
        (o, {| list_entity_box := removelast (list_entity_box w) ++ [self r];
               status_bar := events r;
               next_id := next_id w |})
    end.

Section Loader.

Variable L : Library.

(** [open("./config.json", 'r')]: [None] is a missing file. *)
Definition open_config (file : option string) : M MainWindow string :=
  match file with
  | Some content => mret content
  | None =>
      raise {| exn_kind := FileNotFoundError;
               exn_repr := "FileNotFoundError(2, 'No such file or directory')" |}
  end.

(** Reading the local [cfg]: unbound when [json.load] raised before the
    assignment. *)
Definition read_local {A} (name : string) (v : option A) : M MainWindow A :=
  match v with
  | Some a => mret a
  | None =>
      raise {| exn_kind := UnboundLocalError;
               exn_repr := "UnboundLocalError(" ++ PyStr.DQ
                           ++ "cannot access local variable '" ++ name
                           ++ "' where it is not associated with a value" ++ PyStr.DQ ++ ")" |}
  end.

(** [MainWindow.load_config] on the content of [./config.json]. *)
Definition load_config (file : option string) : M MainWindow unit :=
  rmv_all_display;;
  try_except
    (content ← open_config file;
     cfg ← try_except
             (match json_load L content with
              | Some c => mret (Some c)
              | None =>
                  raise {| exn_kind := OtherException; exn_repr := "JSONDecodeError()" |}
              end)
             is_Exception
             (fun _ => window_set_status corrupted_msg;; mret None);
     records ← read_local "cfg" cfg;
     for_each records
       (fun kv => add_display;; on_last_entity (from_config L (snd kv))))
    is_FileNotFoundError
    (fun _ => window_set_status not_found_msg);;
  window_set_status "Load config succeeded.".

End Loader.

(** ** A library instance to run the code on

    Small stand-ins for the libraries: a server with one page, a parser for
    markup without tags, a serialiser without escaping, class patterns that
    are plain substrings, the text of a tag as all the strings below it, a
    label read back as it was set, [strip] on ASCII text, a decoder that
    knows the empty object, and an [exec] that knows two function bodies. *)

Module Sample.

Definition page_url : string := "https://example.test/page".
Definition page_body : string :=
  "<div class=" ++ PyStr.DQ ++ "a" ++ PyStr.DQ ++ ">X</div><div class="
  ++ PyStr.DQ ++ "b" ++ PyStr.DQ ++ ">Y</div>".

Definition page : Soup.soup :=
  [Soup.Tag "html" []
     [Soup.Tag "body" []
        [Soup.Tag "div" [("class", "a")] [Soup.NavigableString "X"];
         Soup.Tag "div" [("class", "b")] [Soup.NavigableString "Y"]]]].

(** Markup without tags: lxml wraps the text in html, body and p. *)
Definition parse (markup : string) : Soup.soup :=
  if String.eqb markup page_body then page
  else [Soup.Tag "html" [] [Soup.Tag "body" [] [Soup.Tag "p" [] [Soup.NavigableString markup]]]].

Definition show_attr (kv : string * string) : string :=
  " " ++ fst kv ++ "=" ++ PyStr.DQ ++ snd kv ++ PyStr.DQ.

Fixpoint show (n : Soup.node) : string :=
  match n with
  | Soup.Tag nm attrs ch =>
      "<" ++ nm ++ fold_right String.append EmptyString (map show_attr attrs) ++ ">"
      ++ fold_right String.append EmptyString (map show ch)
      ++ "</" ++ nm ++ ">"
  | Soup.NavigableString s => s
  end.

Definition show_soup (doc : Soup.soup) : string :=
  fold_right String.append EmptyString (map show doc).

Definition has_class (p : string) (n : Soup.node) : bool :=
  match n with
  | Soup.Tag _ attrs _ =>
      existsb (fun kv => String.eqb (fst kv) "class" && PyStr.contains p (snd kv)) attrs
  | Soup.NavigableString _ => false
  end.

Definition fetch (url : string) : exn + response :=
  if String.eqb url page_url then inr {| resp_status_code := 200; resp_text := page_body |}
  else if String.eqb url "https://example.test/missing"
       then inr {| resp_status_code := 404; resp_text := "not found" |}
       else inl {| exn_kind := OtherException; exn_repr := "ConnectionError()" |}.

Definition upper (c : ascii) : ascii :=
  if Re.in_range 97 122 c then ascii_of_nat (nat_of_ascii c - 32) else c.

Definition exec (code name : string) : exn + transform :=
  if String.eqb code ("def " ++ name ++ "(x):" ++ PyStr.LF ++ "    return x.upper()")
  then inr (fun x => Returns (string_of_list_ascii (map upper (list_ascii_of_string x))))
  else if String.eqb code ("def " ++ name ++ "(x):" ++ PyStr.LF ++ "    return x")
       then inr (fun x => Returns x)
       else inl {| exn_kind := OtherException; exn_repr := "SyntaxError('invalid syntax')" |}.

Definition decode (content : string) : option (list (string * gmap string cfg_value)) :=
  if String.eqb content "{}" then Some [] else None.

Definition lib : Library :=
  {| pattern := string;
     re_compile := fun p => inr p;
     class_matches := has_class;
     BeautifulSoup := parse;
     prettify := show_soup;
     str_tag := show;
     tag_text := Soup.text;
     soup_text := Soup.soup_text;
     html_to_plain := fun html => Soup.soup_text (parse html);
     read_plain := fun s => s;
     str_strip := PyStr.strip;
     exec_def := exec;
     async_fetch := fetch;
     json_load := decode |}.

(** A fresh entity with the given texts in its inputs. *)
Definition entity (url flt src : string) : EntityBox :=
  set_input_url url (set_input_filter flt (set_input_transform src (EntityBox_init 1))).

Definition start (e : EntityBox) : Run := {| self := e; events := [] |}.

(** An entity that holds the parsed page, with a filter and a filter mode. *)
Definition loaded (flt : string) (with_css : bool) : EntityBox :=
  set_is_with_css with_css
    (set_input_filter flt
       (set_resp_html_full (Some (show_soup page))
          (set_resp_soup (Some page)
             (set_resp_raw (Some page_body)
                (set_status_code 200 (EntityBox_init 1)))))).

Definition window : MainWindow :=
  {| list_entity_box := [EntityBox_init 0]; status_bar := []; next_id := 1 |}.

End Sample.

(** The label [set_text] leaves before a transform is applied: [MARKUP],
    [CLEAN_TEXT], [RAW_TEXT], and the old content for any other option. *)
Definition rendered (L : Library) (opt : Z) (html : string) (old : label_content) : label_content :=
  if opt =? 0 then RichText html
  else if opt =? 1 then PlainText (re_sub_clean (soup_text L (BeautifulSoup L html)))
  else if opt =? 2 then PlainText html
  else old.

(** The label after the guarded call of the transform of the display. *)
Definition transformed (L : Library) (func : option transform) (c : label_content) : label_content :=
  match func with
  | Some f =>
      match f (toPlainText L c) with
      | Returns text => PlainText text
      | Raises repr => PlainText repr
      end
  | None => c
  end.

(** A fetch ends in the populated state: the URL has the shape and the
    response has status 200. *)
Definition fetch_succeeds (L : Library) (url : string) : bool :=
  Re.matches URL_RE url &&
  match async_fetch L url with
  | inr resp => resp_status_code resp =? 200
  | inl _ => false
  end.

(** What lines 331 to 337 of [get_from_input_and_set_transform] make of a
    trimmed source: the function [exec] defines under the new name, or the
    exception raised on the way. *)
Definition compiled (L : Library) (id : N) (fn : string) : exn + transform :=
  let not_found := {| exn_kind := ValueError; exn_repr := "ValueError('substring not found')" |} in
  match PyStr.index fn "(" with
  | None => inl not_found
  | Some i =>
      match PyStr.index fn ")" with
      | None => inl not_found
      | Some j =>
          match PyStr.index fn PyStr.LF with
          | None => inl not_found
          | Some k =>
              exec_def L
                (reconstruct ("_F" ++ pretty id) (PyStr.slice fn (i + 1) j)
                   (PyStr.slice_from fn (k + 1)))
                ("_F" ++ pretty id)
          end
      end
  end.

(** ** The display options and the filter mode of [EntityBox] *)

Section Options.

Variable L : Library.

(** [EntityBox.output_html] *)
Definition output_html : M Run unit :=
  on_self (fun e => set_display (set_output_option 0 (display e)) e);;
  send_to_display L.

(** [EntityBox.output_clean] *)
Definition output_clean : M Run unit :=
  on_self (fun e => set_display (set_output_option 1 (display e)) e);;
  send_to_display L.

(** [EntityBox.output_raw] *)
Definition output_raw : M Run unit :=
  on_self (fun e => set_display (set_output_option 2 (display e)) e);;
  send_to_display L.

(** [EntityBox.with_css] *)
Definition with_css : M Run unit :=
  on_self (set_is_with_css true);;
  send_to_display L.


End Options.

(** ** The rest of [MainWindow] *)

(** [for eb in self.list_entity_box: eb.<method>()]: the method runs on
    each entity in turn, its messages go to the status bar of the window,
    and an exception ends the loop with the entities as they are then. *)
Fixpoint run_each (m : M Run unit) (boxes : list EntityBox) (bar : list event)
  : outcome unit * (list EntityBox * list event) :=
  match boxes with
  | [] => (Done tt, ([], bar))
  | eb :: rest =>
      match m {| self := eb; events := bar |} with
      | (Done _, r) =>
          match run_each m rest (events r) with
          | (o, (rest', bar')) => (o, (self r :: rest', bar'))
          end
      | (Raise ex, r) => (Raise ex, (self r :: rest, events r))
      end
  end.

(** [MainWindow.fetch_all] *)
Definition fetch_all (L : Library) : M MainWindow unit :=
  fun w =>
    match run_each (requests_get L) (list_entity_box w) (status_bar w) with
    | (o, (boxes, bar)) =>
        (o, {| list_entity_box := boxes; status_bar := bar; next_id := next_id w |})
    end.

(** [global_cfg] of [MainWindow.save_config], as [json.dump] writes it: one
    record per entity under the decimal of its index, the first index
    being [idx]. *)
Fixpoint global_cfg_from (idx : nat) (boxes : list EntityBox)
  : list (string * gmap string cfg_value) :=
  match boxes with
  | [] => []
  | eb :: rest => (pretty idx, to_config eb) :: global_cfg_from (S idx) rest
  end.

Definition global_cfg (boxes : list EntityBox) : list (string * gmap string cfg_value) :=
  global_cfg_from 0 boxes.

(** Modelled after the spec's words, to compare the loop of
    [requests_extract] with: the list without the elements identical to an
    earlier one. *)
Fixpoint first_occurrences (l : list string) : list string :=
  match l with
  | [] => []
  | x :: rest => x :: List.filter (fun y => negb (String.eqb y x)) (first_occurrences rest)
  end.

(** The string holds ASCII characters only.  On such strings the classes of
    [URL_RE] are those of Python. *)
Definition is_ascii (s : string) : bool :=
  forallb (fun c => (nat_of_ascii c <? 128)%nat) (list_ascii_of_string s).

(** The URLs requested in a log. *)
Fixpoint requests_of (evs : list event) : list string :=
  match evs with
  | [] => []
  | NetGet url :: rest => url :: requests_of rest
  | Status _ :: rest => requests_of rest
  end.

(** ** [FormRadioButtons] *)

Record QRadioButton : Type := { rb_text : string; rb_checked : bool }.

(** [lst_btn[0].setChecked(True)] *)
Definition check_first (lst_btn : list QRadioButton) : option (list QRadioButton) :=
  match lst_btn with
  | [] => None
  | btn :: rest => Some ({| rb_text := rb_text btn; rb_checked := true |} :: rest)
  end.

(** [FormRadioButtons.new]: the buttons it returns after the group box; on
    no names the index [0] is out of range. *)
Definition FormRadioButtons_new (button_names : list string) : outcome (list QRadioButton) :=
  let lst_btn := map (fun button_name => {| rb_text := button_name; rb_checked := false |})
                   button_names in
  match check_first lst_btn with
  | Some btns => Done btns
  | None => Raise {| exn_kind := OtherException; exn_repr := "IndexError('list index out of range')" |}
  end.

(** ** More instances to run the code on *)

Module Fixture.

(** A library whose [re.compile] rejects the pattern of one open bracket. *)
Definition strict_compile (p : string) : exn + string :=
  if String.eqb p "("
  then inl {| exn_kind := OtherException;
              exn_repr := "error('missing ), unterminated subpattern at position 0')" |}
  else inr p.

Definition strict : Library :=
  {| pattern := string;
     re_compile := strict_compile;
     class_matches := Sample.has_class;
     BeautifulSoup := Sample.parse;
     prettify := Sample.show_soup;
     str_tag := Sample.show;
     tag_text := Soup.text;
     soup_text := Soup.soup_text;
     html_to_plain := fun html => Soup.soup_text (Sample.parse html);
     read_plain := fun s => s;
     str_strip := PyStr.strip;
     exec_def := Sample.exec;
     async_fetch := Sample.fetch;
     json_load := Sample.decode |}.

(** Two entities as a user has set them up. *)
Definition first_box : EntityBox :=
  set_display (set_output_option 2 ScrollDisplay_init)
    (Sample.entity Sample.page_url "a" EmptyString).

Definition second_box : EntityBox :=
  set_is_with_css false (Sample.entity "https://example.test/missing" "Y" EmptyString).

Definition boxes : list EntityBox := [first_box; second_box].

(** A library whose [json.load] reads the file [saved] as what
    [save_config] wrote for [boxes]. *)
Definition saved_decode (content : string) : option (list (string * gmap string cfg_value)) :=
  if String.eqb content "saved" then Some (global_cfg boxes) else None.

Definition saved : Library :=
  {| pattern := string;
     re_compile := fun p => inr p;
     class_matches := Sample.has_class;
     BeautifulSoup := Sample.parse;
     prettify := Sample.show_soup;
     str_tag := Sample.show;
     tag_text := Soup.text;
     soup_text := Soup.soup_text;
     html_to_plain := fun html => Soup.soup_text (Sample.parse html);
     read_plain := fun s => s;
     str_strip := PyStr.strip;
     exec_def := Sample.exec;
     async_fetch := Sample.fetch;
     json_load := saved_decode |}.

Definition window : MainWindow :=
  {| list_entity_box := boxes; status_bar := []; next_id := 7 |}.

(** A page whose [main] carries the class of the [div] inside it, and an
    entity that holds it. *)
Definition nested_page : Soup.soup :=
  [Soup.Tag "html" []
     [Soup.Tag "body" []
        [Soup.Tag "main" [("class", "a")]
           [Soup.Tag "div" [("class", "a")] [Soup.NavigableString "X"]]]]].

Definition nested (flt : string) (with_css : bool) : EntityBox :=
  set_is_with_css with_css
    (set_input_filter flt
       (set_resp_html_full (Some (Sample.show_soup nested_page))
          (set_resp_soup (Some nested_page)
             (set_resp_raw (Some (Sample.show_soup nested_page))
                (set_status_code 200 (EntityBox_init 1)))))).

End Fixture.

(** ** What a pattern matches

    The strings a pattern matches in full, to state what [Re.matches]
    computes. *)
Inductive Lang : Re.regex -> string -> Prop :=
| Lang_eps : Lang Re.Eps EmptyString
| Lang_class (p : ascii -> bool) (c : ascii) :
    p c = true -> Lang (Re.Class p) (String c EmptyString)
| Lang_cat (r1 r2 : Re.regex) (s1 s2 : string) :
    Lang r1 s1 -> Lang r2 s2 -> Lang (Re.Cat r1 r2) (String.append s1 s2)
| Lang_alt_l (r1 r2 : Re.regex) (s : string) : Lang r1 s -> Lang (Re.Alt r1 r2) s
| Lang_alt_r (r1 r2 : Re.regex) (s : string) : Lang r2 s -> Lang (Re.Alt r1 r2) s
| Lang_star_nil (r : Re.regex) : Lang (Re.Star r) EmptyString
| Lang_star_cons (r : Re.regex) (s1 s2 : string) :
    Lang r s1 -> Lang (Re.Star r) s2 -> Lang (Re.Star r) (String.append s1 s2).

(** * Properties *)

(** ** Running the computations *)

Ltac munfold :=
  unfold mbind, M_bind, mret, M_ret, get, modify, raise, when, on_self, emit, set_status,
    on_display, try_except, require_str in *.

Ltac mrun := repeat (munfold; cbn in *).

Ltac case_match_goal :=
  match goal with
  | |- context [match ?x with _ => _ end] => destruct x eqn:?
  end.

(** ** The URL pattern and the string operations, on examples *)

Example url_default_text_rejected : Re.matches URL_RE "https://" = false.
Proof. vm_compute. reflexivity. Qed.

Example url_https_accepted : Re.matches URL_RE "https://example.test/page" = true.
Proof. vm_compute. reflexivity. Qed.

Example url_without_scheme_rejected : Re.matches URL_RE "example.test/page" = false.
Proof. vm_compute. reflexivity. Qed.

Example url_ftp_credentials_accepted : Re.matches URL_RE "ftp://u:p@host:21/" = true.
Proof. vm_compute. reflexivity. Qed.

Example url_space_after_scheme_rejected : Re.matches URL_RE "http:// x" = false.
Proof. vm_compute. reflexivity. Qed.

Example strip_example :
  PyStr.strip ("  def f(x):" ++ PyStr.LF ++ "  return x " ++ PyStr.LF)
  = "def f(x):" ++ PyStr.LF ++ "  return x".
Proof. vm_compute. reflexivity. Qed.

(** ** [ScrollDisplay.set_text] *)

Section DisplayFacts.

Variable L : Library.

(** With a string to show, [set_text] returns, and the label is the
    rendering of the string passed through the installed transform. *)
Lemma set_text_Some (h : string) (d : ScrollDisplay) :
  set_text L (Some h) d
  = (Done tt,
     set_label (transformed L (display_func_transform d)
                  (rendered L (output_option d) h (label d))) d).
Proof.
  unfold set_text, rendered, transformed. mrun.
  destruct d as [opt f lbl]; cbn.
  destruct (opt =? 0); [|destruct (opt =? 1); [|destruct (opt =? 2)]]; cbn;
    destruct f as [f|]; cbn; try reflexivity;
    match goal with |- context [f ?x] => destruct (f x) end; reflexivity.
Qed.

End DisplayFacts.

(** ** [EntityBox.requests_get] *)

Section FetchFacts.

Variable L : Library.

(** After a successful fetch the filter runs, whatever its outcome the
    method returns, and [resp_html] is set when the full document is. *)
Lemma requests_extract_done (r : Run) :
  status_code (self r) = 200 ->
  exists v,
    requests_extract L r = (Done tt, {| self := set_resp_html v (self r); events := events r |})
    /\ (is_Some (resp_html_full (self r)) -> is_Some v)
    /\ (input_filter (self r) = EmptyString -> v = resp_html_full (self r)).
Proof.
  intros H200. unfold requests_extract. mrun. rewrite H200. cbn.
  destruct (input_filter (self r)) as [|c flt] eqn:Hflt; cbn.
  - eexists; split; [reflexivity|]. split; [tauto | reflexivity].
  - unfold soup_of, compile_pattern. mrun.
    destruct (is_with_css (self r)), (resp_soup (self r)) as [doc|]; cbn;
      try destruct (re_compile L _); cbn;
      (eexists; split; [reflexivity|]; split; [intros _; eexists; reflexivity | discriminate]).
Qed.

(** C4: a URL that does not match [URL_RE] stops [requests_get] at once:
    the only event is the message about the invalid URL, so the network
    is not touched, and the entity is left as it was. *)
Theorem requests_get_invalid_url (r : Run) :
  Re.matches URL_RE (input_url (self r)) = false ->
  requests_get L r
  = (Done tt, {| self := self r; events := events r ++ [Status invalid_url_msg] |}).
Proof.
  intros H. unfold requests_get. mrun. rewrite H. reflexivity.
Qed.

(** The run of a fetch that does not reach the populated state. *)
Lemma requests_get_failure_run (r : Run) :
  fetch_succeeds L (input_url (self r)) = false ->
  exists msg,
    requests_get L r
    = (Done tt,
       {| self := self r;
          events := events r
                    ++ (if Re.matches URL_RE (input_url (self r))
                        then [NetGet (input_url (self r)); Status msg]
                        else [Status msg]) |}).
Proof.
  unfold fetch_succeeds, requests_get. intros H. mrun.
  destruct (Re.matches URL_RE (input_url (self r))); cbn in *.
  - destruct (async_fetch L (input_url (self r))) as [ex|resp]; cbn.
    + exists (exn_repr ex). rewrite <- List.app_assoc. reflexivity.
    + rewrite H. cbn. exists (response_repr resp). rewrite <- List.app_assoc. reflexivity.
  - eexists. reflexivity.
Qed.

(** C3 (amended): a fetch that does not end in the populated state, for
    an invalid URL, a transport failure or a status other than 200,
    returns with the entity exactly as it was, cached fields included,
    and reports one message after the request, if one was sent. *)
Theorem requests_get_failure_keeps_entity (r : Run) :
  fetch_succeeds L (input_url (self r)) = false ->
  exists msg,
    requests_get L r
    = (Done tt,
       {| self := self r;
          events := events r
                    ++ (if Re.matches URL_RE (input_url (self r))
                        then [NetGet (input_url (self r)); Status msg]
                        else [Status msg]) |}).
Proof.
  unfold fetch_succeeds, requests_get. intros H. mrun.
  destruct (Re.matches URL_RE (input_url (self r))); cbn in *.
  - destruct (async_fetch L (input_url (self r))) as [ex|resp]; cbn.
    + exists (exn_repr ex). rewrite <- List.app_assoc. reflexivity.
    + rewrite H. cbn. exists (response_repr resp). rewrite <- List.app_assoc. reflexivity.
  - eexists. reflexivity.
Qed.

End FetchFacts.

Section FetchSuccess.

Variable L : Library.
Variable r : Run.
Variable resp : response.

Hypothesis url_ok : Re.matches URL_RE (input_url (self r)) = true.
Hypothesis fetched : async_fetch L (input_url (self r)) = inr resp.
Hypothesis status_200 : resp_status_code resp = 200.

Let soup := BeautifulSoup L (resp_text resp).
Let r' := snd (requests_get L r).

(** The state a successful fetch leaves, field by field. *)
Lemma requests_get_success :
  fst (requests_get L r) = Done tt
  /\ status_code (self r') = 200
  /\ resp_raw (self r') = Some (resp_text resp)
  /\ resp_soup (self r') = Some soup
  /\ resp_html_full (self r') = Some (prettify L soup)
  /\ (exists h,
        resp_html (self r') = Some h
        /\ (input_filter (self r) = EmptyString -> h = prettify L soup)
        /\ label (display (self r'))
           = rendered L (output_option (display (self r))) h (label (display (self r))))
  /\ is_with_transform (self r') = false
  /\ func_transform (self r') = None
  /\ display_func_transform (display (self r')) = None
  /\ transform_row_visible (self r') = false
  /\ input_url (self r') = input_url (self r)
  /\ input_filter (self r') = input_filter (self r)
  /\ is_with_css (self r') = is_with_css (self r)
  /\ output_option (display (self r')) = output_option (display (self r))
  /\ input_transform (self r') = input_transform (self r)
  /\ events r'
     = (events r ++ [NetGet (input_url (self r)); Status "Transform disabled.";
                     Status "URL Fetch succeeded."])%list.
Proof.
  subst r' soup. unfold requests_get. mrun.
  rewrite url_ok. cbn. rewrite fetched, status_200. cbn.
  unfold enable_transform, unset_display_transform, send_to_display, set_transform. mrun.
  match goal with
  | |- context [requests_extract L ?s] =>
      destruct (requests_extract_done L s eq_refl) as (v & Hrun & Hsome & Hempty)
  end.
  rewrite Hrun. cbn in *.
  destruct Hsome as [h ->]; [eexists; reflexivity|].
  rewrite set_text_Some. cbn.
  repeat split; try reflexivity.
  - exists h. repeat split.
    intros Hflt. specialize (Hempty Hflt). congruence.
  - rewrite <- !List.app_assoc. reflexivity.
Qed.

End FetchSuccess.

Section FetchClaims.

Variable L : Library.

(** C7: after a fetch with status 200 and an empty filter, the extracted
    fragment is the pretty-printed parse of the response body, in either
    filter mode; filtering is skipped. *)
Theorem requests_get_empty_filter_full_document (r : Run) (resp : response) :
  Re.matches URL_RE (input_url (self r)) = true ->
  async_fetch L (input_url (self r)) = inr resp ->
  resp_status_code resp = 200 ->
  input_filter (self r) = EmptyString ->
  fst (requests_get L r) = Done tt
  /\ resp_html (self (snd (requests_get L r)))
     = Some (prettify L (BeautifulSoup L (resp_text resp)))
  /\ resp_html (self (snd (requests_get L r)))
     = resp_html_full (self (snd (requests_get L r))).
Proof.
  intros Hurl Hfetch H200 Hflt.
  destruct (requests_get_success L r resp Hurl Hfetch H200)
    as (Hdone & _ & _ & _ & Hfull & (h & Hh & Hempty & _) & _).
  rewrite Hh, Hfull, (Hempty Hflt). auto.
Qed.

(** C10: a fetch that completes with status 200 switches the transform
    off before rendering: [is_with_transform] is false, the compiled
    transform of the entity and of the display are [None], the transform
    row is hidden, and the label shows the rendering of the fresh
    fragment with no transform applied. *)
Theorem requests_get_disables_transform (r : Run) (resp : response) :
  Re.matches URL_RE (input_url (self r)) = true ->
  async_fetch L (input_url (self r)) = inr resp ->
  resp_status_code resp = 200 ->
  let r' := snd (requests_get L r) in
  is_with_transform (self r') = false
  /\ func_transform (self r') = None
  /\ display_func_transform (display (self r')) = None
  /\ transform_row_visible (self r') = false
  /\ exists h,
       resp_html (self r') = Some h
       /\ label (display (self r'))
          = rendered L (output_option (display (self r))) h (label (display (self r))).
Proof.
  intros Hurl Hfetch H200 r'.
  destruct (requests_get_success L r resp Hurl Hfetch H200)
    as (_ & _ & _ & _ & _ & (h & Hh & _ & Hlabel) & Hwith & Hfunc & Hdisp & Hrow & _).
  repeat split; try assumption. exists h. split; assumption.
Qed.

End FetchClaims.

(** ** The loop of [requests_extract] *)

Section CollectFacts.

Variable L : Library.
Variable keep : Soup.node -> bool.

Lemma str_in_spec (x : string) (l : list string) : str_in x l = true <-> x ∈ l.
Proof.
  unfold str_in. rewrite existsb_exists, list_elem_of_In. split.
  - intros (y & Hy & Heq). apply String.eqb_eq in Heq. subst. assumption.
  - intros Hx. exists x. split; [assumption | apply String.eqb_refl].
Qed.

Let step (repo_html : list string) (tag : Soup.node) : list string :=
  if keep tag then
    if negb (str_in (str_tag L tag) repo_html)
    then (repo_html ++ [str_tag L tag])%list
    else repo_html
  else repo_html.

(** The loop started from any duplicate-free list: it stays
    duplicate-free, it only appends, what it appends follows the order of
    the tags kept, and it holds exactly the old strings and those of the
    tags kept. *)
Lemma collect_from (found : list Soup.node) :
  forall acc : list string,
    NoDup acc ->
    NoDup (fold_left step found acc)
    /\ (exists ext,
          fold_left step found acc = (acc ++ ext)%list
          /\ ext `sublist_of` map (str_tag L) (filter (fun tag => keep tag = true) found))
    /\ (forall s,
          s ∈ fold_left step found acc
          <-> s ∈ acc \/ exists tag, tag ∈ found /\ keep tag = true /\ str_tag L tag = s).
Proof.
  induction found as [|t found IH]; intros acc Hnd; cbn [fold_left].
  - split; [assumption|]. split.
    + exists []. split; [symmetry; apply app_nil_r | apply sublist_nil_l].
    + intros s. split; [auto|]. intros [H|(tag & Hin & _)]; [assumption|].
      apply elem_of_nil in Hin. contradiction.
  - unfold step at 2 4 6. destruct (keep t) eqn:Hkeep.
    + destruct (str_in (str_tag L t) acc) eqn:Hin; cbn [negb].
      * destruct (IH acc Hnd) as (Hnd' & (ext & Heq & Hsub) & Hmem).
        split; [assumption|]. split.
        -- exists ext. split; [assumption|].
           rewrite filter_cons_True by assumption. cbn [map].
           apply sublist_cons. assumption.
        -- intros s. rewrite Hmem. split.
           ++ intros [H|(tag & Htag & Hk & Hs)]; [auto|].
              right. exists tag. split; [apply elem_of_cons; auto | auto].
           ++ intros [H|(tag & Htag & Hk & Hs)]; [auto|].
              apply elem_of_cons in Htag as [->|Htag].
              ** left. subst s. apply str_in_spec. assumption.
              ** right. exists tag. auto.
      * assert (Hnot : str_tag L t ∉ acc).
        { intros Hc. apply str_in_spec in Hc. congruence. }
        assert (Hnd1 : NoDup (acc ++ [str_tag L t])).
        { apply NoDup_app. split; [assumption|]. split.
          - intros x Hx Hx'. apply list_elem_of_singleton in Hx'. subst. auto.
          - apply NoDup_singleton. }
        destruct (IH _ Hnd1) as (Hnd' & (ext & Heq & Hsub) & Hmem).
        split; [assumption|]. split.
        -- exists (str_tag L t :: ext). split.
           ++ rewrite Heq, <- List.app_assoc. reflexivity.
           ++ rewrite filter_cons_True by assumption. cbn [map].
              apply sublist_skip. assumption.
        -- intros s. rewrite Hmem, elem_of_app, list_elem_of_singleton. split.
           ++ intros [[H|H]|(tag & Htag & Hk & Hs)].
              ** auto.
              ** right. exists t. split; [apply elem_of_cons; auto | auto].
              ** right. exists tag. split; [apply elem_of_cons; auto | auto].
           ++ intros [H|(tag & Htag & Hk & Hs)]; [auto|].
              apply elem_of_cons in Htag as [->|Htag].
              ** left. right. auto.
              ** right. exists tag. auto.
    + destruct (IH acc Hnd) as (Hnd' & (ext & Heq & Hsub) & Hmem).
      split; [assumption|]. split.
      * exists ext. split; [assumption|].
        rewrite filter_cons_False by congruence. assumption.
      * intros s. rewrite Hmem. split.
        -- intros [H|(tag & Htag & Hk & Hs)]; [auto|].
           right. exists tag. split; [apply elem_of_cons; auto | auto].
        -- intros [H|(tag & Htag & Hk & Hs)]; [auto|].
           apply elem_of_cons in Htag as [->|Htag]; [congruence|].
           right. exists tag. auto.
Qed.

Lemma collect_NoDup (found : list Soup.node) : NoDup (collect L keep found).
Proof. apply (collect_from found []). constructor. Qed.

(** The strings collected follow the order of the tags iterated over. *)
Lemma collect_sublist (found : list Soup.node) :
  collect L keep found `sublist_of` map (str_tag L) found.
Proof.
  destruct (collect_from found [] (NoDup_nil_2 (A:=string))) as (_ & (ext & Heq & Hsub) & _).
  unfold collect. fold step. rewrite Heq. cbn [app].
  etransitivity; [exact Hsub|].
  apply (fmap_sublist (str_tag L)), sublist_filter.
Qed.

Lemma collect_elem_of (found : list Soup.node) (s : string) :
  s ∈ collect L keep found
  <-> exists tag, tag ∈ found /\ keep tag = true /\ str_tag L tag = s.
Proof.
  destruct (collect_from found [] (NoDup_nil_2 (A:=string))) as (_ & _ & Hmem).
  unfold collect. fold step. rewrite Hmem. split; [|auto].
  intros [H|H]; [|assumption]. apply elem_of_nil in H. contradiction.
Qed.

(** One more tag: its string is appended when the tag is kept and the
    string is not there yet, and skipped otherwise. *)
Lemma collect_snoc (found : list Soup.node) (tag : Soup.node) :
  collect L keep (found ++ [tag])
  = if keep tag && negb (str_in (str_tag L tag) (collect L keep found))
    then (collect L keep found ++ [str_tag L tag])%list
    else collect L keep found.
Proof.
  unfold collect. rewrite fold_left_app. cbn [fold_left].
  destruct (keep tag); cbn [andb]; [|reflexivity].
  match goal with |- context [negb ?b] => destruct b end; reflexivity.
Qed.

End CollectFacts.

(** ** The loop keeps the first of equal strings *)

Section FirstOccurrences.

Variable L : Library.
Variable keep : Soup.node -> bool.

Lemma filter_filter (f g : string -> bool) (l : list string) :
  List.filter f (List.filter g l) = List.filter (fun y => g y && f y) l.
Proof.
  induction l as [|x l IH]; [reflexivity|]. cbn [List.filter].
  destruct (g x); cbn [List.filter andb]; [destruct (f x)|]; rewrite IH; reflexivity.
Qed.

Lemma str_in_snoc (y x : string) (acc : list string) :
  str_in y (acc ++ [x]) = str_in y acc || String.eqb y x.
Proof. unfold str_in. rewrite existsb_app. cbn. rewrite orb_false_r. reflexivity. Qed.

(** From any list collected so far, the loop appends the first
    occurrences of the strings kept that are not in that list. *)
Lemma collect_from_first_occurrences (found : list Soup.node) :
  forall acc : list string,
    fold_left
      (fun repo_html tag =>
         if keep tag then
           if negb (str_in (str_tag L tag) repo_html)
           then (repo_html ++ [str_tag L tag])%list
           else repo_html
         else repo_html)
      found acc
    = (acc ++ List.filter (fun y => negb (str_in y acc))
                (first_occurrences
                   (map (str_tag L) (filter (fun tag => keep tag = true) found))))%list.
Proof.
  induction found as [|t found IH]; intros acc; cbn [fold_left].
  - cbn. rewrite app_nil_r. reflexivity.
  - destruct (keep t) eqn:Hkeep.
    + rewrite filter_cons_True by assumption. cbn [map first_occurrences List.filter].
      destruct (str_in (str_tag L t) acc) eqn:Hin; cbn [negb].
      * rewrite IH, filter_filter. f_equal. apply filter_ext. intros y.
        destruct (String.eqb y (str_tag L t)) eqn:Hy; cbn; [|reflexivity].
        apply String.eqb_eq in Hy. subst y. rewrite Hin. reflexivity.
      * rewrite IH, filter_filter, <- List.app_assoc. cbn [app]. f_equal. f_equal.
        apply filter_ext. intros y. rewrite str_in_snoc, negb_orb. apply andb_comm.
    + rewrite filter_cons_False by congruence. apply IH.
Qed.

(** The strings collected are the first occurrences, in the order of the
    tags, of the markup of the tags kept. *)
Lemma collect_first_occurrences (found : list Soup.node) :
  collect L keep found
  = first_occurrences (map (str_tag L) (filter (fun tag => keep tag = true) found)).
Proof.
  unfold collect. rewrite collect_from_first_occurrences. cbn [app].
  rewrite <- (filter_ext (fun _ => true)); [|intros y; reflexivity].
  generalize (first_occurrences
                (map (str_tag L) (filter (fun tag => keep tag = true) found))).
  intros l. induction l as [|x l IH]; [reflexivity|]. cbn. rewrite IH. reflexivity.
Qed.

End FirstOccurrences.

(** Of two tags with the same markup around a third, the first one is the
    one kept. *)
Example first_occurrences_order :
  first_occurrences ["a"; "b"; "a"; "c"; "b"] = ["a"; "b"; "c"].
Proof. reflexivity. Qed.

(** ** [EntityBox.requests_extract] with a filter *)

Section ExtractFacts.

Variable L : Library.

Lemma not_excluded_spec (tag : Soup.node) :
  not_excluded tag = true <-> Soup.name tag ∉ TAG_EXCLUDE.
Proof.
  unfold not_excluded. rewrite negb_true_iff, <- not_true_iff_false, str_in_spec.
  reflexivity.
Qed.

Variable r : Run.
Variable doc : Soup.soup.

Hypothesis fetched : status_code (self r) = 200.
Hypothesis with_filter : (String.length (input_filter (self r)) =? 0)%nat = false.
Hypothesis parsed : resp_soup (self r) = Some doc.

Lemma requests_extract_by_class (p : pattern L) :
  is_with_css (self r) = true ->
  re_compile L (input_filter (self r)) = inr p ->
  requests_extract L r
  = (Done tt,
     {| self := set_resp_html (Some (PyStr.join ("<br>" ++ PyStr.LF) (by_class L p doc))) (self r);
        events := events r |}).
Proof.
  intros Hcss Hre. unfold requests_extract, soup_of, compile_pattern.
  munfold. cbn [fst snd self events].
  rewrite fetched, with_filter, Hcss, parsed, Hre. reflexivity.
Qed.

Lemma requests_extract_by_text :
  is_with_css (self r) = false ->
  requests_extract L r
  = (Done tt,
     {| self := set_resp_html
                  (Some (PyStr.join ("<br>" ++ PyStr.LF) (by_text L (input_filter (self r)) doc)))
                  (self r);
        events := events r |}).
Proof.
  intros Hcss. unfold requests_extract, soup_of.
  munfold. cbn [fst snd self events].
  rewrite fetched, with_filter, Hcss, parsed. reflexivity.
Qed.

(** A pattern that does not compile: the text of the error is the result. *)
Lemma requests_extract_bad_pattern (ex : exn) :
  is_with_css (self r) = true ->
  re_compile L (input_filter (self r)) = inl ex ->
  requests_extract L r
  = (Done tt, {| self := set_resp_html (Some (exn_repr ex)) (self r); events := events r |}).
Proof.
  intros Hcss Hre. unfold requests_extract, soup_of, compile_pattern.
  munfold. cbn [fst snd self events].
  rewrite fetched, with_filter, Hcss, parsed, Hre. reflexivity.
Qed.

(** C5: with a non-empty filter, in both modes, the result is the join of
    the strings collected, and each of them is the markup of a tag of
    the document that meets the filter and whose name is not in
    [TAG_EXCLUDE]. *)
Theorem requests_extract_excludes_denylist :
  let out := resp_html (self (snd (requests_extract L r))) in
  (is_with_css (self r) = true ->
   forall p, re_compile L (input_filter (self r)) = inr p ->
     out = Some (PyStr.join ("<br>" ++ PyStr.LF) (by_class L p doc))
     /\ forall s, s ∈ by_class L p doc ->
          exists tag, tag ∈ Soup.find_all doc /\ str_tag L tag = s
                      /\ class_matches L p tag = true
                      /\ Soup.name tag ∉ TAG_EXCLUDE)
  /\ (is_with_css (self r) = false ->
      out = Some (PyStr.join ("<br>" ++ PyStr.LF) (by_text L (input_filter (self r)) doc))
      /\ forall s, s ∈ by_text L (input_filter (self r)) doc ->
           exists tag, tag ∈ Soup.find_all doc /\ str_tag L tag = s
                       /\ PyStr.contains (input_filter (self r)) (tag_text L tag) = true
                       /\ Soup.name tag ∉ TAG_EXCLUDE).
Proof.
  intros out. subst out. split.
  - intros Hcss p Hre. rewrite (requests_extract_by_class p Hcss Hre). split; [reflexivity|].
    intros s Hs. apply collect_elem_of in Hs as (tag & Htag & Hkeep & Hstr).
    apply list_elem_of_filter in Htag as [Hmatch Htag].
    exists tag. repeat split; try assumption. apply not_excluded_spec. assumption.
  - intros Hcss. rewrite (requests_extract_by_text Hcss). split; [reflexivity|].
    intros s Hs. apply collect_elem_of in Hs as (tag & Htag & Hkeep & Hstr).
    apply andb_true_iff in Hkeep as [Hex Htext].
    exists tag. repeat split; try assumption. apply not_excluded_spec. assumption.
Qed.

(** C6: with a non-empty filter, in both modes, the result is the join
    of the markup of the tags that meet the filter and are not excluded,
    taken in the order of the document with every markup identical to an
    earlier one left out; so the strings joined are pairwise different,
    they follow the order of the tags in the document, and every tag that
    meets the filter and is not excluded has its markup among them. *)
Theorem requests_extract_no_duplicates :
  let out := resp_html (self (snd (requests_extract L r))) in
  (is_with_css (self r) = true ->
   forall p, re_compile L (input_filter (self r)) = inr p ->
     out = Some (PyStr.join ("<br>" ++ PyStr.LF) (by_class L p doc))
     /\ by_class L p doc
        = first_occurrences
            (map (str_tag L)
               (filter (fun tag => not_excluded tag = true)
                  (filter (fun tag => class_matches L p tag = true) (Soup.find_all doc))))
     /\ NoDup (by_class L p doc)
     /\ by_class L p doc `sublist_of` map (str_tag L) (Soup.find_all doc)
     /\ forall tag, tag ∈ Soup.find_all doc -> class_matches L p tag = true ->
                    not_excluded tag = true -> str_tag L tag ∈ by_class L p doc)
  /\ (is_with_css (self r) = false ->
      out = Some (PyStr.join ("<br>" ++ PyStr.LF) (by_text L (input_filter (self r)) doc))
      /\ by_text L (input_filter (self r)) doc
         = first_occurrences
             (map (str_tag L)
                (filter
                   (fun tag =>
                      not_excluded tag
                      && PyStr.contains (input_filter (self r)) (tag_text L tag) = true)
                   (Soup.find_all doc)))
      /\ NoDup (by_text L (input_filter (self r)) doc)
      /\ by_text L (input_filter (self r)) doc `sublist_of` map (str_tag L) (Soup.find_all doc)
      /\ forall tag, tag ∈ Soup.find_all doc ->
                     PyStr.contains (input_filter (self r)) (tag_text L tag) = true ->
                     not_excluded tag = true ->
                     str_tag L tag ∈ by_text L (input_filter (self r)) doc).
Proof.
  intros out. subst out. split.
  - intros Hcss p Hre. rewrite (requests_extract_by_class p Hcss Hre).
    split; [reflexivity|]. split; [apply collect_first_occurrences|].
    split; [apply collect_NoDup|]. split.
    + unfold by_class. etransitivity; [apply collect_sublist|].
      apply (fmap_sublist (str_tag L)), sublist_filter.
    + intros tag Htag Hmatch Hkeep. apply collect_elem_of.
      exists tag. split; [|auto]. apply list_elem_of_filter. auto.
  - intros Hcss. rewrite (requests_extract_by_text Hcss).
    split; [reflexivity|]. split; [apply collect_first_occurrences|].
    split; [apply collect_NoDup|]. split.
    + apply collect_sublist.
    + intros tag Htag Htext Hkeep. apply collect_elem_of.
      exists tag. split; [assumption|]. split; [|reflexivity].
      apply andb_true_iff. auto.
Qed.

End ExtractFacts.

(** The page of the sample server, filtered by class [a]: the first [div]. *)
Example by_class_scenario :
  by_class Sample.lib "a" Sample.page
  = ["<div class=" ++ PyStr.DQ ++ "a" ++ PyStr.DQ ++ ">X</div>"].
Proof. vm_compute. reflexivity. Qed.

(** The same page filtered by the text [Y]: [html] is excluded, [body]
    holds the text and is collected before the second [div]. *)
Example by_text_scenario :
  by_text Sample.lib "Y" Sample.page
  = ["<body><div class=" ++ PyStr.DQ ++ "a" ++ PyStr.DQ ++ ">X</div><div class="
     ++ PyStr.DQ ++ "b" ++ PyStr.DQ ++ ">Y</div></body>";
     "<div class=" ++ PyStr.DQ ++ "b" ++ PyStr.DQ ++ ">Y</div>"].
Proof. vm_compute. reflexivity. Qed.

(** The class [a] on the nested page: [main] has the class and is
    excluded, the [div] inside it is collected. *)
Example excluded_candidate_is_skipped :
  class_matches Sample.lib "a"
    (Soup.Tag "main" [("class", "a")]
       [Soup.Tag "div" [("class", "a")] [Soup.NavigableString "X"]]) = true
  /\ by_class Sample.lib "a" Fixture.nested_page
     = ["<div class=" ++ PyStr.DQ ++ "a" ++ PyStr.DQ ++ ">X</div>"].
Proof. vm_compute. split; reflexivity. Qed.

Lemma requests_extract_excludes_denylist_witness :
  resp_html (self (snd (requests_extract Sample.lib (Sample.start (Fixture.nested "a" true)))))
  = Some (PyStr.join ("<br>" ++ PyStr.LF) (by_class Sample.lib "a" Fixture.nested_page))
  /\ forall s, s ∈ by_class Sample.lib "a" Fixture.nested_page ->
       exists tag, tag ∈ Soup.find_all Fixture.nested_page /\ Sample.show tag = s
                   /\ Sample.has_class "a" tag = true
                   /\ Soup.name tag ∉ TAG_EXCLUDE.
Proof.
  exact (proj1 (requests_extract_excludes_denylist Sample.lib
                  (Sample.start (Fixture.nested "a" true)) Fixture.nested_page
                  eq_refl eq_refl eq_refl) eq_refl "a" eq_refl).
Defined.

Lemma requests_extract_no_duplicates_witness :
  by_text Sample.lib "Y" Sample.page
  = first_occurrences
      (map Sample.show
         (filter (fun tag => not_excluded tag && PyStr.contains "Y" (Soup.text tag) = true)
            (Soup.find_all Sample.page)))
  /\ NoDup (by_text Sample.lib "Y" Sample.page).
Proof.
  pose proof (proj2 (requests_extract_no_duplicates Sample.lib
                      (Sample.start (Sample.loaded "Y" false)) Sample.page
                      eq_refl eq_refl eq_refl) eq_refl) as (_ & Hfirst & Hnodup & _).
  split; [exact Hfirst | exact Hnodup].
Defined.

Lemma requests_get_invalid_url_witness :
  requests_get Sample.lib (Sample.start (EntityBox_init 1))
  = (Done tt, {| self := EntityBox_init 1; events := [Status invalid_url_msg] |}).
Proof.
  exact (requests_get_invalid_url Sample.lib (Sample.start (EntityBox_init 1)) eq_refl).
Defined.

Lemma requests_get_failure_keeps_entity_witness :
  exists msg,
    requests_get Sample.lib
      (Sample.start (Sample.entity "https://example.test/missing" EmptyString EmptyString))
    = (Done tt,
       {| self := Sample.entity "https://example.test/missing" EmptyString EmptyString;
          events := [NetGet "https://example.test/missing"; Status msg] |}).
Proof.
  exact (requests_get_failure_keeps_entity Sample.lib
           (Sample.start (Sample.entity "https://example.test/missing" EmptyString EmptyString))
           eq_refl).
Defined.

(** C3 as stated fails: an entity that holds a fetched page and is then
    pointed at a URL answered with 404 keeps its status code 200, its raw
    document, its tree, its fragment and its rendered text. *)
Lemma failed_refetch_keeps_stale_cache :
  let r1 := snd (requests_get Sample.lib
                   (Sample.start (Sample.entity Sample.page_url EmptyString EmptyString))) in
  let e2 := set_input_url "https://example.test/missing" (self r1) in
  let r2 := snd (requests_get Sample.lib {| self := e2; events := events r1 |}) in
  fetch_succeeds Sample.lib (input_url e2) = false
  /\ status_code (self r2) = 200
  /\ resp_raw (self r2) = Some Sample.page_body
  /\ resp_soup (self r2) = Some Sample.page
  /\ resp_html (self r2) = Some (Sample.show_soup Sample.page)
  /\ label (display (self r2)) = RichText (Sample.show_soup Sample.page).
Proof. vm_compute. repeat split. Qed.

Lemma requests_get_empty_filter_full_document_witness :
  resp_html (self (snd (requests_get Sample.lib
                          (Sample.start (Sample.entity Sample.page_url EmptyString EmptyString)))))
  = Some (Sample.show_soup (Sample.parse Sample.page_body)).
Proof.
  exact (proj1 (proj2 (requests_get_empty_filter_full_document Sample.lib
                         (Sample.start (Sample.entity Sample.page_url EmptyString EmptyString))
                         {| resp_status_code := 200; resp_text := Sample.page_body |}
                         eq_refl eq_refl eq_refl eq_refl))).
Defined.

Lemma requests_get_disables_transform_witness :
  is_with_transform
    (self (snd (requests_get Sample.lib
                  (Sample.start
                     (set_is_with_transform true
                        (Sample.entity Sample.page_url EmptyString EmptyString))))))
  = false.
Proof.
  exact (proj1 (requests_get_disables_transform Sample.lib
                  (Sample.start
                     (set_is_with_transform true
                        (Sample.entity Sample.page_url EmptyString EmptyString)))
                  {| resp_status_code := 200; resp_text := Sample.page_body |}
                  eq_refl eq_refl eq_refl)).
Defined.

(** ** [EntityBox.get_from_input_and_set_transform] *)

Section TransformFacts.

Variable L : Library.

(** A [try] whose handler returns lets no [Exception] through. *)
Lemma try_except_Exception {S A} (body : M S A) (handler : exn -> M S A) :
  (forall e s, exists a s', handler e s = (Done a, s')) ->
  forall s ex,
    fst (try_except body is_Exception handler s) = Raise ex -> is_Exception ex = false.
Proof.
  intros Hh s ex. unfold try_except.
  destruct (body s) as [[a|e] s']; cbn; [discriminate|].
  destruct (is_Exception e) eqn:He.
  - destruct (Hh e s') as (a & s'' & ->). discriminate.
  - cbn. intros [= ->]. assumption.
Qed.

(** [send_to_display] sends nothing to the status bar. *)
Lemma send_to_display_events (r : Run) :
  events (snd (send_to_display L r)) = events r.
Proof.
  unfold send_to_display. mrun.
  destruct (status_code (self r) =? 200) eqn:H200; cbn; [|reflexivity].
  apply Z.eqb_eq in H200.
  destruct (requests_extract_done L r H200) as (v & -> & _). cbn.
  destruct (set_text L v _) as [[[]|ex] d]; reflexivity.
Qed.

Lemma negb_shape_ok (fn : string) :
  negb (PyStr.startswith fn "def") || negb (PyStr.contains "return" fn) = negb (shape_ok fn).
Proof. unfold shape_ok. symmetry. apply negb_andb. Qed.

(** The method in terms of [compiled]: the message of the shape check,
    then the fallback on an [Exception], or the installation of the
    function followed by a refresh of the display. *)
Lemma get_from_input_and_set_transform_run (r : Run) :
  let fn := str_strip L (input_transform (self r)) in
  let checked := (events r ++ (if shape_ok fn then [] else [Status err_msg]))%list in
  let fallback (s : Run) : outcome unit * Run :=
    (Done tt, {| self := set_func_transform (Some (fun x => Returns x)) (self s);
                 events := events s ++ [Status err_msg] |}) in
  get_from_input_and_set_transform L r
  = match compiled L (self_id (self r)) fn with
    | inl ex =>
        if is_Exception ex then fallback {| self := self r; events := checked |}
        else (Raise ex, {| self := self r; events := checked |})
    | inr f =>
        match send_to_display L
                {| self := set_display (set_display_func_transform (Some f) (display (self r)))
                             (set_func_transform (Some f) (self r));
                   events := checked ++ [Status "Transform set and ready."] |} with
        | (Done _, s) => (Done tt, s)
        | (Raise ex, s) => if is_Exception ex then fallback s else (Raise ex, s)
        end
    end.
Proof.
  intros fn checked fallback. subst checked fallback.
  unfold get_from_input_and_set_transform, compiled, str_index, set_display_transform,
    set_transform.
  munfold. cbn [fst snd self events]. fold fn.
  rewrite negb_shape_ok.
  destruct (shape_ok fn); cbn [negb].
  all: destruct (PyStr.index fn "(") as [i|]; [|mrun; rewrite ?app_nil_r; reflexivity].
  all: destruct (PyStr.index fn ")") as [j|]; [|mrun; rewrite ?app_nil_r; reflexivity].
  all: destruct (PyStr.index fn PyStr.LF) as [k|]; [|mrun; rewrite ?app_nil_r; reflexivity].
  all: destruct (exec_def L _ _) as [ex|f].
  all: try destruct (is_Exception ex) eqn:Hex.
  all: mrun; rewrite ?app_nil_r; try rewrite Hex; try reflexivity.
  all: try (destruct r; reflexivity).
  all: match goal with
       | |- context [send_to_display L ?s] => destruct (send_to_display L s) as [[[]|ex] s']
       end; try reflexivity.
  all: cbn; destruct (is_Exception ex); reflexivity.
Qed.

End TransformFacts.

Section TransformClaims.

Variable L : Library.

(** C1 (amended): for a source that, trimmed, does not start with [def]
    or lacks [return], the message about the malformed input is reported;
    when cutting out the arguments or the body fails, or [exec] raises an
    [Exception], the entity's transform becomes the identity, which
    returns its input, the display is left as it was, the message is
    reported again and the method returns; and no [Exception] leaves the
    method in any case. *)
Theorem get_from_input_and_set_transform_malformed (r : Run) :
  let fn := str_strip L (input_transform (self r)) in
  shape_ok fn = false ->
  let res := get_from_input_and_set_transform L r in
  (exists rest, events (snd res) = (events r ++ Status err_msg :: rest)%list)
  /\ (forall ex,
        compiled L (self_id (self r)) fn = inl ex -> is_Exception ex = true ->
        res = (Done tt,
               {| self := set_func_transform (Some (fun x => Returns x)) (self r);
                  events := events r ++ [Status err_msg; Status err_msg] |}))
  /\ (forall ex, fst res = Raise ex -> is_Exception ex = false).
Proof.
  intros fn Hshape res. subst res.
  rewrite get_from_input_and_set_transform_run. fold fn. rewrite Hshape.
  destruct (compiled L (self_id (self r)) fn) as [ex|f].
  - destruct (is_Exception ex) eqn:Hex; cbn.
    + split; [exists [Status err_msg]; rewrite <- List.app_assoc; reflexivity|].
      split; [|discriminate].
      intros ex' [= <-] _. rewrite <- List.app_assoc. reflexivity.
    + split; [exists []; reflexivity|].
      split; [intros ex' [= <-]; congruence|].
      intros ex' [= <-]. assumption.
  - split; [|split; [discriminate|]].
    + match goal with
      | |- context [send_to_display L ?s] =>
          pose proof (send_to_display_events L s) as Hev;
          destruct (send_to_display L s) as [[[]|ex] s']
      end; cbn in *.
      * exists [Status "Transform set and ready."].
        rewrite Hev, <- List.app_assoc. reflexivity.
      * destruct (is_Exception ex); cbn; rewrite Hev, <- !List.app_assoc; cbn;
          eexists; reflexivity.
    + match goal with
      | |- context [send_to_display L ?s] => destruct (send_to_display L s) as [[[]|ex] s']
      end; cbn; [discriminate|].
      destruct (is_Exception ex) eqn:Hex; cbn; [discriminate|].
      intros ex' [= <-]. assumption.
Qed.

End TransformClaims.

Lemma get_from_input_and_set_transform_malformed_witness :
  get_from_input_and_set_transform Sample.lib
    (Sample.start (Sample.entity "https://" EmptyString "bad code"))
  = (Done tt,
     {| self := set_func_transform (Some (fun x => Returns x))
                  (Sample.entity "https://" EmptyString "bad code");
        events := [Status err_msg; Status err_msg] |}).
Proof.
  exact (proj1 (proj2 (get_from_input_and_set_transform_malformed Sample.lib
                         (Sample.start (Sample.entity "https://" EmptyString "bad code"))
                         eq_refl))
           {| exn_kind := ValueError; exn_repr := "ValueError('substring not found')" |}
           eq_refl eq_refl).
Defined.

(** C1 as stated fails: the source [bad code] does not pass the check, and
    the transform it compiles to returns its input, [hello] for [hello],
    where the claim has the description of the error; the display gets no
    transform at all. *)
Lemma malformed_source_fallback_is_identity :
  let r' := snd (get_from_input_and_set_transform Sample.lib
                   (Sample.start (Sample.entity "https://" EmptyString "bad code"))) in
  shape_ok (PyStr.strip "bad code") = false
  /\ option_map (fun f : transform => f "hello") (func_transform (self r'))
     = Some (Returns "hello")
  /\ match display_func_transform (display (self r')) with
     | None => True
     | Some _ => False
     end.
Proof. vm_compute. repeat split. Qed.

(** A source that fails the check and compiles all the same: the message
    is reported and the function is installed. *)
Example unchecked_source_is_installed :
  let src := "lambda(x):" ++ PyStr.LF ++ "    return x.upper()" in
  let r' := snd (get_from_input_and_set_transform Sample.lib
                   (Sample.start (Sample.entity "https://" EmptyString src))) in
  shape_ok (PyStr.strip src) = false
  /\ events r' = [Status err_msg; Status "Transform set and ready."]
  /\ option_map (fun f : transform => f "hello") (func_transform (self r'))
     = Some (Returns "HELLO").
Proof. vm_compute. repeat split. Qed.

(** The scenario of a well-formed source: the text shown is upper case. *)
Example upper_source_is_applied :
  let src := "def f(x):" ++ PyStr.LF ++ "    return x.upper()" in
  let e := set_input_transform src (set_display (set_output_option 2 ScrollDisplay_init)
                                      (Sample.loaded EmptyString true)) in
  let r' := snd (enable_transform Sample.lib true (Sample.start e)) in
  option_map (fun f : transform => f "hello") (func_transform (self r')) = Some (Returns "HELLO")
  /\ label (display (self r'))
     = PlainText (string_of_list_ascii
                    (map Sample.upper (list_ascii_of_string (Sample.show_soup Sample.page)))).
Proof. vm_compute. repeat split. Qed.

(** ** [CLEAN_TEXT] *)

Example clean_collapses_spaces_and_newlines :
  re_sub_clean ("a  " ++ PyStr.LF ++ " " ++ PyStr.LF ++ "b c") = "a" ++ PyStr.LF ++ "b" ++ PyStr.LF ++ "c".
Proof. vm_compute. reflexivity. Qed.

(** Tabs are outside the class and stay. *)
Example clean_keeps_tabs :
  let tab := String (ascii_of_nat 9) EmptyString in
  re_sub_clean ("a" ++ tab ++ tab ++ "b") = "a" ++ tab ++ tab ++ "b".
Proof. vm_compute. reflexivity. Qed.

(** A character outside the class is copied, and a run of characters of
    the class yields one line feed. *)
Lemma re_sub_runs_other (cls : ascii -> bool) (repl : string) (b : bool) (c : ascii) (s : string) :
  cls c = false ->
  re_sub_runs cls repl b (String c s) = String c (re_sub_runs cls repl false s).
Proof. intros H. cbn. rewrite H. reflexivity. Qed.

Lemma re_sub_runs_start (cls : ascii -> bool) (repl : string) (c : ascii) (s : string) :
  cls c = true ->
  re_sub_runs cls repl false (String c s) = String.append repl (re_sub_runs cls repl true s).
Proof. intros H. cbn. rewrite H. reflexivity. Qed.

Lemma re_sub_runs_inside (cls : ascii -> bool) (repl : string) (c : ascii) (s : string) :
  cls c = true ->
  re_sub_runs cls repl true (String c s) = re_sub_runs cls repl true s.
Proof. intros H. cbn. rewrite H. reflexivity. Qed.

(** C8 fails on the code at a fragment with a vertical bar: in [CLEAN_TEXT]
    mode the text [a|b], which holds no white space, is shown as [a], a
    line feed, [b]. *)
Theorem clean_text_replaces_vertical_bar :
  let d := set_output_option 1 ScrollDisplay_init in
  Soup.soup_text (BeautifulSoup Sample.lib "a|b") = "a|b"
  /\ set_text Sample.lib (Some "a|b") d
     = (Done tt, set_label (PlainText ("a" ++ PyStr.LF ++ "b")) d).
Proof. vm_compute. split; reflexivity. Qed.

(** ** [MainWindow.load_config] *)

Section LoaderFacts.

Variable L : Library.

Lemma rmv_display_some (w : MainWindow) :
  (0 < length (list_entity_box w))%nat ->
  rmv_display w
  = (Done tt,
     {| list_entity_box := removelast (list_entity_box w);
        status_bar := status_bar w ++ [Status "Removed bottom most widget"];
        next_id := next_id w |}).
Proof.
  intros Hlen. apply Nat.ltb_lt in Hlen.
  unfold rmv_display, window_set_status. munfold. rewrite Hlen. reflexivity.
Qed.

Lemma repeat_rmv_display (n : nat) :
  forall w,
    length (list_entity_box w) = n ->
    exists evs,
      repeatM n rmv_display w
      = (Done tt,
         {| list_entity_box := []; status_bar := status_bar w ++ evs; next_id := next_id w |}).
Proof.
  induction n as [|n IH]; intros w Hlen.
  - apply nil_length_inv in Hlen. destruct w as [boxes bar nid]. cbn in *. subst boxes.
    exists []. rewrite app_nil_r. reflexivity.
  - cbn [repeatM]. munfold. rewrite rmv_display_some by lia.
    match goal with
    | |- context [repeatM n rmv_display ?w'] =>
        destruct (IH w') as (evs & ->)
    end.
    + cbn [list_entity_box]. rewrite removelast_firstn_len, length_take, Hlen. lia.
    + cbn [list_entity_box status_bar next_id].
      eexists. rewrite <- List.app_assoc. reflexivity.
Qed.

(** [rmv_all_display] empties the collection. *)
Lemma rmv_all_display_empties (w : MainWindow) :
  exists evs,
    rmv_all_display w
    = (Done tt,
       {| list_entity_box := []; status_bar := status_bar w ++ evs; next_id := next_id w |}).
Proof.
  unfold rmv_all_display. munfold.
  destruct (repeat_rmv_display (length (list_entity_box w)) w eq_refl) as (evs & ->).
  unfold window_set_status. munfold. cbn [list_entity_box status_bar next_id].
  eexists. rewrite <- List.app_assoc. reflexivity.
Qed.

(** X25: for a missing file the loader returns, the collection is empty, and the
    status bar ends with the message about the missing file followed by
    the message of success. *)
Lemma load_config_missing_file (w : MainWindow) :
  exists evs,
    load_config L None w
    = (Done tt,
       {| list_entity_box := [];
          status_bar := status_bar w ++ evs
                        ++ [Status not_found_msg; Status "Load config succeeded."];
          next_id := next_id w |}).
Proof.
  unfold load_config. munfold.
  destruct (rmv_all_display_empties w) as (evs & ->).
  unfold open_config, window_set_status. munfold. cbn.
  exists evs. rewrite <- !List.app_assoc. reflexivity.
Qed.

(** C9 fails on the code for content that [json.load] rejects: the
    message about the corrupted file is shown, the collection is empty,
    and then the loop reads the local [cfg], which was never assigned:
    [UnboundLocalError] leaves the loader. *)
Theorem load_config_malformed_raises (w : MainWindow) (content : string) :
  json_load L content = None ->
  exists ex evs,
    load_config L (Some content) w
    = (Raise ex,
       {| list_entity_box := [];
          status_bar := status_bar w ++ evs ++ [Status corrupted_msg];
          next_id := next_id w |})
    /\ exn_kind ex = UnboundLocalError.
Proof.
  intros Hjson. unfold load_config. munfold.
  destruct (rmv_all_display_empties w) as (evs & ->).
  unfold open_config, read_local, window_set_status. munfold. rewrite Hjson. cbn.
  eexists. exists evs. rewrite <- !List.app_assoc. split; reflexivity.
Qed.

End LoaderFacts.

Lemma load_config_malformed_raises_witness :
  exists ex evs,
    load_config Sample.lib (Some "not json") Sample.window
    = (Raise ex,
       {| list_entity_box := [];
          status_bar := status_bar Sample.window ++ evs ++ [Status corrupted_msg];
          next_id := next_id Sample.window |})
    /\ exn_kind ex = UnboundLocalError.
Proof.
  exact (load_config_malformed_raises Sample.lib Sample.window "not json" eq_refl).
Defined.

(** The empty object loads: nothing is added and the loader reports success. *)
Example load_config_empty_object :
  load_config Sample.lib (Some "{}") Sample.window
  = (Done tt,
     {| list_entity_box := [];
        status_bar := [Status "Removed bottom most widget"; Status "Removed all widgets";
                       Status "Load config succeeded."];
        next_id := 1 |}).
Proof. vm_compute. reflexivity. Qed.

(** ** [EntityBox.to_config] and [EntityBox.from_config] *)

Section ConfigFacts.

Variable L : Library.

(** The record holds the six fields; the source is saved only while a
    compiled transform is set. *)
Lemma to_config_fields (e : EntityBox) (d : cfg_value) :
  cfg_get (to_config e) "url" d = VStr (input_url e)
  /\ cfg_get (to_config e) "filter" d = VStr (input_filter e)
  /\ cfg_get (to_config e) "is_with_css" d = VBool (is_with_css e)
  /\ cfg_get (to_config e) "output_option" d = VInt (output_option (display e))
  /\ cfg_get (to_config e) "is_with_transform" d = VBool (is_with_transform e)
  /\ cfg_get (to_config e) "transform" d
     = VStr (match func_transform e with
             | Some _ => input_transform e
             | None => EmptyString
             end).
Proof.
  unfold cfg_get, to_config. repeat split; by simplify_map_eq.
Qed.

(** Before the first successful fetch nothing is sent to the display. *)
Lemma send_to_display_unfetched (r : Run) :
  status_code (self r) <> 200 -> send_to_display L r = (Done tt, r).
Proof.
  intros H. apply Z.eqb_neq in H. unfold send_to_display. munfold. rewrite H. reflexivity.
Qed.

(** What [from_config] has assigned on a new entity when it calls
    [requests_get]. *)
Lemma from_config_staged (e : EntityBox) (id : N) (evs : list event) :
  exists e1,
    from_config L (to_config e) {| self := EntityBox_init id; events := evs |}
    = (requests_get L ≫= fun _ =>
         r ← get;
         if is_with_transform (self r) then
           on_self (set_btn_transform_checked true);;
           enable_transform L true
         else mret tt) {| self := e1; events := evs |}
    /\ status_code e1 = -1
    /\ input_url e1 = input_url e
    /\ input_filter e1 = input_filter e
    /\ is_with_css e1 = is_with_css e
    /\ output_option (display e1) = output_option (display e)
    /\ is_with_transform e1 = is_with_transform e
    /\ input_transform e1
       = match func_transform e with
         | Some _ => input_transform e
         | None => EmptyString
         end.
Proof.
  unfold from_config, input_filter_setText, input_transform_setPlainText.
  destruct (to_config_fields e (VStr EmptyString)) as (-> & -> & _ & _ & _ & ->).
  destruct (to_config_fields e (VBool true)) as (_ & _ & -> & _).
  destruct (to_config_fields e (VInt 0)) as (_ & _ & _ & -> & _).
  destruct (to_config_fields e (VBool false)) as (_ & _ & _ & _ & -> & _).
  destruct (input_filter e) as [|c flt] eqn:Hflt; mrun.
  - eexists. split; [reflexivity|]. cbn. repeat split; reflexivity.
  - rewrite send_to_display_unfetched by (cbn; discriminate). mrun.
    eexists. split; [reflexivity|]. cbn. repeat split; reflexivity.
Qed.

End ConfigFacts.

Section ConfigClaims.

Variable L : Library.

Lemma fetch_succeeds_true (url : string) :
  fetch_succeeds L url = true ->
  Re.matches URL_RE url = true
  /\ exists resp, async_fetch L url = inr resp /\ resp_status_code resp = 200.
Proof.
  unfold fetch_succeeds. intros H. apply andb_true_iff in H as [Hm Hf].
  split; [assumption|].
  destruct (async_fetch L url) as [ex|resp]; [discriminate|].
  exists resp. split; [reflexivity | apply Z.eqb_eq; assumption].
Qed.

(** C2 (amended): the record written by [to_config], loaded into a new
    entity by [from_config], gives back the URL, the filter, the filter
    mode and the output option; it gives back the transform source when
    a compiled transform was set and the empty string otherwise; and it
    gives back [is_with_transform] when that was false or when the fetch
    of the load does not end with status 200. *)
Theorem config_round_trip (e : EntityBox) (id : N) (evs : list event) :
  let r' := snd (from_config L (to_config e) {| self := EntityBox_init id; events := evs |}) in
  input_url (self r') = input_url e
  /\ input_filter (self r') = input_filter e
  /\ is_with_css (self r') = is_with_css e
  /\ output_option (display (self r')) = output_option (display e)
  /\ input_transform (self r')
     = match func_transform e with
       | Some _ => input_transform e
       | None => EmptyString
       end
  /\ (fetch_succeeds L (input_url e) = false \/ is_with_transform e = false ->
      is_with_transform (self r') = is_with_transform e).
Proof.
  intros r'. subst r'.
  destruct (from_config_staged L e id evs)
    as (e1 & -> & Hst & Hurl & Hflt & Hcss & Hopt & Hwith & Hsrc).
  rewrite <- Hurl, <- Hflt, <- Hcss, <- Hopt, <- Hwith, <- Hsrc.
  clear Hurl Hflt Hcss Hopt Hwith Hsrc.
  munfold.
  destruct (fetch_succeeds L (input_url e1)) eqn:Hfetch.
  - apply fetch_succeeds_true in Hfetch as (Hm & resp & Hresp & H200).
    destruct (requests_get_success L {| self := e1; events := evs |} resp Hm Hresp H200)
      as (Hdone & _ & _ & _ & _ & _ & Hoff & _ & _ & _ & Hu & Hf & Hc & Ho & Ht & _).
    cbn [self] in *.
    destruct (requests_get L {| self := e1; events := evs |}) as [o s'].
    cbn [fst snd] in *. subst o. mrun. rewrite Hoff. cbn.
    repeat split; try assumption.
    intros [Hc'|Hw]; congruence.
  - destruct (requests_get_failure_run L {| self := e1; events := evs |} Hfetch)
      as (msg & ->).
    mrun. destruct (is_with_transform e1) eqn:Hw; cbn;
      [|repeat split; cbn; try reflexivity; congruence].
    unfold enable_transform. mrun.
    rewrite get_from_input_and_set_transform_run. cbn.
    destruct (compiled L _ _) as [ex|f]; [destruct (is_Exception ex)|]; cbn.
    + repeat split; cbn; try reflexivity; congruence.
    + repeat split; cbn; try reflexivity; congruence.
    + rewrite send_to_display_unfetched by (cbn; rewrite Hst; discriminate). cbn.
      repeat split; cbn; try reflexivity; congruence.
Qed.

End ConfigClaims.

Lemma config_round_trip_witness :
  is_with_transform
    (self (snd (from_config Sample.lib
                  (to_config (set_is_with_transform true
                                (Sample.entity "https://example.test/missing" "a" "bad code")))
                  (Sample.start (EntityBox_init 2)))))
  = true.
Proof.
  exact (proj2 (proj2 (proj2 (proj2 (proj2
           (config_round_trip Sample.lib
              (set_is_with_transform true
                 (Sample.entity "https://example.test/missing" "a" "bad code"))
              2 [])))))
           (or_introl eq_refl)).
Defined.

(** C2 as stated fails: the source typed into an entity whose transform
    was switched on and then off is written as the empty string, so the
    loaded entity does not get it back. *)
Lemma disabled_transform_source_not_saved :
  let src := "def f(x):" ++ PyStr.LF ++ "    return x" in
  let on := snd (enable_transform Sample.lib true
                   (Sample.start (Sample.entity "https://" EmptyString src))) in
  let e := self (snd (enable_transform Sample.lib false on)) in
  let e' := self (snd (from_config Sample.lib (to_config e) (Sample.start (EntityBox_init 2)))) in
  is_with_transform e = false
  /\ input_transform e = src
  /\ to_config e !! "transform" = Some (VStr EmptyString)
  /\ input_transform e' = EmptyString
  /\ input_transform e' <> input_transform e.
Proof. vm_compute. repeat split. discriminate. Qed.

(** A transform that was enabled is not enabled again by a load whose fetch
    succeeds: the fetch switches it off before [from_config] tests it. *)
Example load_with_successful_fetch_drops_transform :
  let src := "def f(x):" ++ PyStr.LF ++ "    return x" in
  let e := self (snd (enable_transform Sample.lib true
                        (Sample.start (Sample.entity Sample.page_url EmptyString src)))) in
  let e' := self (snd (from_config Sample.lib (to_config e) (Sample.start (EntityBox_init 2)))) in
  is_with_transform e = true
  /\ to_config e !! "is_with_transform" = Some (VBool true)
  /\ is_with_transform e' = false
  /\ input_transform e' = src.
Proof. vm_compute. repeat split. Qed.

(** ** Further facts on the filter and on [CLEAN_TEXT] *)

(** The exclusion looks at the tag collected, not below it: a [script]
    inside a collected [div] is part of the markup of the [div]. *)
Example nested_excluded_tag_is_serialised :
  let doc := [Soup.Tag "div" [("class", "a")]
                [Soup.Tag "script" [] [Soup.NavigableString "s"]]] in
  by_class Sample.lib "a" doc
  = ["<div class=" ++ PyStr.DQ ++ "a" ++ PyStr.DQ ++ "><script>s</script></div>"].
Proof. vm_compute. reflexivity. Qed.

(** Two tags with the same markup are collected once. *)
Example equal_markup_collected_once :
  let item := Soup.Tag "li" [("class", "a")] [Soup.NavigableString "x"] in
  by_class Sample.lib "a" [Soup.Tag "ul" [] [item; item]]
  = ["<li class=" ++ PyStr.DQ ++ "a" ++ PyStr.DQ ++ ">x</li>"].
Proof. vm_compute. reflexivity. Qed.

(** Text without line feed, vertical bar or space goes through
    [re.sub] unchanged. *)
Lemma re_sub_clean_id (s : string) :
  forallb (fun c => negb (clean_class c)) (list_ascii_of_string s) = true ->
  re_sub_clean s = s.
Proof.
  unfold re_sub_clean. generalize false.
  induction s as [|c s IH]; intros b H; [reflexivity|].
  cbn in H. apply andb_true_iff in H as [Hc Hs]. apply negb_true_iff in Hc.
  rewrite re_sub_runs_other by assumption. f_equal. apply IH. assumption.
Qed.

(** X26: cleaning keeps every character other than line feed, vertical
    bar and space, in the order of the text. *)
Lemma re_sub_clean_keeps_others (s : string) :
  List.filter (fun c => negb (clean_class c)) (list_ascii_of_string (re_sub_clean s))
  = List.filter (fun c => negb (clean_class c)) (list_ascii_of_string s).
Proof.
  unfold re_sub_clean. generalize false.
  induction s as [|c s IH]; intros b; [reflexivity|].
  destruct (clean_class c) eqn:Hc.
  - cbn [list_ascii_of_string List.filter]. rewrite Hc. cbn [negb].
    destruct b.
    + rewrite re_sub_runs_inside by assumption. apply IH.
    + rewrite re_sub_runs_start by assumption. cbn. apply IH.
  - rewrite re_sub_runs_other by assumption.
    cbn [list_ascii_of_string List.filter]. rewrite Hc. cbn [negb]. f_equal. apply IH.
Qed.

(** * Further properties of the code *)

(** ** What [set_text], [send_to_display] and [requests_extract] touch *)

Section Frames.

Variable L : Library.

(** [set_text] changes nothing of the display but the label. *)
Lemma set_text_shape (v : option string) (d : ScrollDisplay) :
  exists lbl, snd (set_text L v d) = set_label lbl d.
Proof.
  destruct v as [h|]; [rewrite set_text_Some; eexists; reflexivity|].
  unfold set_text. mrun. destruct d as [opt f lbl]. cbn.
  destruct (opt =? 0); [exists lbl; reflexivity|].
  destruct (opt =? 1); [exists lbl; reflexivity|].
  destruct (opt =? 2); [exists lbl; reflexivity|]. cbn.
  destruct f as [f|]; cbn; [|exists lbl; reflexivity].
  destruct (f (toPlainText L lbl)); eexists; reflexivity.
Qed.

Lemma set_resp_html_same (e : EntityBox) : set_resp_html (resp_html e) e = e.
Proof. destruct e. reflexivity. Qed.

Lemma set_label_same (d : ScrollDisplay) : set_label (label d) d = d.
Proof. destruct d. reflexivity. Qed.

Lemma set_display_same (e : EntityBox) : set_display (display e) e = e.
Proof. destruct e. reflexivity. Qed.

(** The run of [requests_extract] in any state. *)
Lemma requests_extract_run (r : Run) :
  exists v,
    requests_extract L r = (Done tt, {| self := set_resp_html v (self r); events := events r |})
    /\ (status_code (self r) <> 200 -> v = resp_html (self r))
    /\ (status_code (self r) = 200 -> is_Some (resp_html_full (self r)) -> is_Some v).
Proof.
  destruct (Z.eq_dec (status_code (self r)) 200) as [H200|Hne].
  - destruct (requests_extract_done L r H200) as (v & Hrun & Hsome & _).
    exists v. split; [assumption|]. split; [contradiction | auto].
  - exists (resp_html (self r)). split; [|split; [reflexivity | contradiction]].
    unfold requests_extract. mrun. apply Z.eqb_neq in Hne. rewrite Hne. cbn.
    rewrite set_resp_html_same. destruct r. reflexivity.
Qed.

(** The run of [send_to_display] after a successful fetch: the filter,
    then [set_text] on its result. *)
Lemma send_to_display_fetched (r : Run) :
  status_code (self r) = 200 ->
  exists v,
    requests_extract L r = (Done tt, {| self := set_resp_html v (self r); events := events r |})
    /\ send_to_display L r
       = (fst (set_text L v (display (self r))),
          {| self := set_display (snd (set_text L v (display (self r))))
                       (set_resp_html v (self r));
             events := events r |}).
Proof.
  intros H200. destruct (requests_extract_done L r H200) as (v & Hrun & _).
  exists v. split; [assumption|].
  unfold send_to_display. mrun. rewrite H200. cbn. rewrite Hrun. cbn.
  destruct (set_text L v (display (self r))) as [o d]. reflexivity.
Qed.

(** [send_to_display] changes nothing of the entity but [resp_html] and
    the label of the display, and sends no event. *)
Lemma send_to_display_shape (r : Run) :
  exists v lbl,
    snd (send_to_display L r)
    = {| self := set_display (set_label lbl (display (self r))) (set_resp_html v (self r));
         events := events r |}.
Proof.
  destruct (Z.eq_dec (status_code (self r)) 200) as [H200|Hne].
  - destruct (send_to_display_fetched r H200) as (v & _ & ->). cbn [snd].
    destruct (set_text_shape v (display (self r))) as (lbl & ->).
    exists v, lbl. reflexivity.
  - exists (resp_html (self r)), (label (display (self r))).
    unfold send_to_display. mrun. apply Z.eqb_neq in Hne. rewrite Hne. cbn.
    rewrite set_resp_html_same, set_label_same, set_display_same. destruct r. reflexivity.
Qed.

End Frames.

(** ** [requests_get], [requests_extract]: what they never do *)

Section FetchMore.

Variable L : Library.

(** X1: [requests_get] never raises: an invalid URL, an exception of the
    transport and a status other than 200 all end as a message. *)
Theorem requests_get_never_raises (r : Run) : fst (requests_get L r) = Done tt.
Proof.
  destruct (fetch_succeeds L (input_url (self r))) eqn:Hfetch.
  - apply fetch_succeeds_true in Hfetch as (Hm & resp & Hresp & H200).
    apply (requests_get_success L r resp Hm Hresp H200).
  - destruct (requests_get_failure_run L r Hfetch) as (msg & ->). reflexivity.
Qed.


(** X3: [requests_extract] never raises, sends nothing, and assigns
    nothing but [resp_html]. *)
Theorem requests_extract_only_sets_resp_html (r : Run) :
  exists v,
    requests_extract L r = (Done tt, {| self := set_resp_html v (self r); events := events r |}).
Proof.
  destruct (requests_extract_run L r) as (v & Hrun & _). exists v. assumption.
Qed.

(** X4: running [requests_extract] again on its own result changes
    nothing: the fragment depends on the document and the filter only. *)
Theorem requests_extract_idempotent (r : Run) :
  requests_extract L (snd (requests_extract L r)) = requests_extract L r.
Proof.
  destruct r as [e evs]. unfold requests_extract, soup_of, compile_pattern. mrun.
  destruct (status_code e =? 200) eqn:H1; cbn; [|rewrite H1; reflexivity].
  destruct ((String.length (input_filter e) =? 0)%nat) eqn:H2; cbn;
    [rewrite H1, H2; reflexivity|].
  destruct (is_with_css e) eqn:H3, (resp_soup e) as [doc|] eqn:H4; cbn;
    try destruct (re_compile L (input_filter e)) as [ex|p] eqn:H5; cbn;
    rewrite ?H1, ?H2, ?H3, ?H4; cbn; rewrite ?H5; reflexivity.
Qed.

End FetchMore.

(** ** Concatenation and substrings *)

Section TextFacts.

Lemma append_cons (x : ascii) (a b : string) :
  String.append (String x a) b = String x (String.append a b).
Proof. reflexivity. Qed.

Lemma append_assoc (a b c : string) :
  String.append (String.append a b) c = String.append a (String.append b c).
Proof.
  induction a as [|x a IH]; [reflexivity|]. rewrite !append_cons. f_equal. exact IH.
Qed.

Lemma append_empty_r (a : string) : String.append a EmptyString = a.
Proof.
  induction a as [|x a IH]; [reflexivity|]. rewrite append_cons. f_equal. exact IH.
Qed.

Lemma prefix_append (sub post : string) : String.prefix sub (String.append sub post) = true.
Proof.
  induction sub as [|c sub IH]; [destruct post; reflexivity|].
  rewrite append_cons. cbn [String.prefix].
  destruct (ascii_dec c c); [assumption | contradiction].
Qed.

Lemma prefix_split (sub s : string) :
  String.prefix sub s = true -> exists post, s = String.append sub post.
Proof.
  revert s. induction sub as [|c sub IH]; intros s H; [exists s; reflexivity|].
  destruct s as [|d s]; cbn in H; [discriminate|].
  destruct (ascii_dec c d) as [->|]; [|discriminate].
  destruct (IH s H) as (post & ->). exists post. reflexivity.
Qed.

(** [sub in s] holds exactly when [s] is some text, [sub], some text. *)
Lemma index_cons (sub : string) (c : ascii) (s : string) :
  String.index 0 sub (String c s)
  = if String.prefix sub (String c s) then Some 0%nat
    else match String.index 0 sub s with
         | Some n => Some (S n)
         | None => None
         end.
Proof. reflexivity. Qed.

Lemma contains_spec (sub s : string) :
  PyStr.contains sub s = true
  <-> exists pre post, s = String.append pre (String.append sub post).
Proof.
  unfold PyStr.contains. split.
  - induction s as [|c s IH].
    + destruct sub; [|discriminate]. intros _. exists EmptyString, EmptyString. reflexivity.
    + rewrite index_cons. destruct (String.prefix sub (String c s)) eqn:Hp.
      * intros _. destruct (prefix_split _ _ Hp) as (post & ->).
        exists EmptyString, post. reflexivity.
      * destruct (String.index 0 sub s); [|discriminate]. intros _.
        destruct (IH eq_refl) as (pre & post & ->).
        exists (String c pre), post. reflexivity.
  - intros (pre & post & ->). induction pre as [|c pre IH].
    + change (String.append EmptyString (String.append sub post))
        with (String.append sub post).
      destruct (String.append sub post) as [|d t] eqn:Hs.
      * destruct sub; [reflexivity | discriminate].
      * rewrite index_cons, <- Hs, prefix_append. reflexivity.
    + rewrite append_cons, index_cons. destruct (String.prefix sub _); [reflexivity|].
      destruct (String.index 0 sub _); [reflexivity | discriminate].
Qed.

End TextFacts.

(** ** More on the filter *)

Section ExtractMore.

Variable L : Library.

Lemma collect_nothing (keep : Soup.node -> bool) (found : list Soup.node) :
  (forall tag, tag ∈ found -> keep tag = false) -> collect L keep found = [].
Proof.
  intros Hnone. destruct (collect L keep found) as [|s l] eqn:Hc; [reflexivity|].
  assert (Hs : s ∈ collect L keep found) by (rewrite Hc; apply elem_of_cons; auto).
  apply collect_elem_of in Hs as (tag & Htag & Hkeep & _).
  rewrite (Hnone tag Htag) in Hkeep. discriminate.
Qed.

(** The loop run over tags whose strings are all collected already adds
    nothing. *)
Lemma collect_saturated (keep : Soup.node -> bool) (found : list Soup.node) :
  forall acc,
    (forall tag, tag ∈ found -> keep tag = true -> str_tag L tag ∈ acc) ->
    fold_left
      (fun repo_html tag =>
         if keep tag then
           if negb (str_in (str_tag L tag) repo_html)
           then (repo_html ++ [str_tag L tag])%list
           else repo_html
         else repo_html)
      found acc = acc.
Proof.
  induction found as [|t found IH]; intros acc Hall; [reflexivity|].
  cbn [fold_left]. destruct (keep t) eqn:Hkeep.
  - assert (Hin : str_in (str_tag L t) acc = true).
    { apply str_in_spec, Hall; [apply elem_of_cons; auto | assumption]. }
    rewrite Hin. cbn [negb]. apply IH. intros tag Htag. apply Hall, elem_of_cons. auto.
  - apply IH. intros tag Htag. apply Hall, elem_of_cons. auto.
Qed.

Lemma collect_twice (keep : Soup.node -> bool) (found : list Soup.node) :
  collect L keep (found ++ found) = collect L keep found.
Proof.
  unfold collect at 1. rewrite fold_left_app. fold (collect L keep found).
  apply collect_saturated. intros tag Htag Hkeep.
  apply collect_elem_of. exists tag. auto.
Qed.

Variable r : Run.
Variable doc : Soup.soup.

Hypothesis fetched : status_code (self r) = 200.
Hypothesis with_filter : (String.length (input_filter (self r)) =? 0)%nat = false.
Hypothesis parsed : resp_soup (self r) = Some doc.

(** X7: when no tag of the document passes the filter and the
    exclusion, the fragment is the empty string, in both modes. *)
Theorem requests_extract_no_match :
  let out := resp_html (self (snd (requests_extract L r))) in
  (is_with_css (self r) = true ->
   forall p, re_compile L (input_filter (self r)) = inr p ->
     (forall tag, tag ∈ Soup.find_all doc ->
                  class_matches L p tag && not_excluded tag = false) ->
     out = Some EmptyString)
  /\ (is_with_css (self r) = false ->
      (forall tag, tag ∈ Soup.find_all doc ->
                   not_excluded tag && PyStr.contains (input_filter (self r)) (tag_text L tag)
                   = false) ->
      out = Some EmptyString).
Proof.
  intros out. subst out. split.
  - intros Hcss p Hre Hnone.
    rewrite (requests_extract_by_class L r doc fetched with_filter parsed p Hcss Hre).
    cbn [snd self resp_html set_resp_html]. unfold by_class.
    rewrite collect_nothing; [reflexivity|].
    intros tag Htag. apply list_elem_of_filter in Htag as [Hm Htag].
    specialize (Hnone tag Htag). rewrite Hm in Hnone. exact Hnone.
  - intros Hcss Hnone.
    rewrite (requests_extract_by_text L r doc fetched with_filter parsed Hcss).
    cbn [snd self resp_html set_resp_html]. unfold by_text.
    rewrite collect_nothing; [reflexivity|]. exact Hnone.
Qed.

End ExtractMore.

Lemma requests_extract_no_match_witness :
  resp_html (self (snd (requests_extract Sample.lib (Sample.start (Sample.loaded "Z" false)))))
  = Some EmptyString.
Proof.
  apply (proj2 (requests_extract_no_match Sample.lib (Sample.start (Sample.loaded "Z" false))
                  Sample.page eq_refl eq_refl eq_refl) eq_refl).
  intros tag Htag. apply list_elem_of_In in Htag. cbn in Htag.
  destruct Htag as [<-|[<-|[<-|[<-|[]]]]]; reflexivity.
Defined.

(** X8: in [BY_CLASS] mode a filter that is not a regular expression does
    not raise: the fragment is the text of the error of [re.compile]. *)
Theorem requests_extract_shows_pattern_error (L : Library) (r : Run) (doc : Soup.soup) (ex : exn) :
  status_code (self r) = 200 ->
  (String.length (input_filter (self r)) =? 0)%nat = false ->
  resp_soup (self r) = Some doc ->
  is_with_css (self r) = true ->
  re_compile L (input_filter (self r)) = inl ex ->
  fst (requests_extract L r) = Done tt
  /\ resp_html (self (snd (requests_extract L r))) = Some (exn_repr ex).
Proof.
  intros H200 Hflt Hdoc Hcss Hre.
  rewrite (requests_extract_bad_pattern L r doc H200 Hflt Hdoc ex Hcss Hre). auto.
Qed.

Lemma requests_extract_shows_pattern_error_witness :
  resp_html (self (snd (requests_extract Fixture.strict (Sample.start (Sample.loaded "(" true)))))
  = Some "error('missing ), unterminated subpattern at position 0')".
Proof.
  exact (proj2 (requests_extract_shows_pattern_error Fixture.strict
                  (Sample.start (Sample.loaded "(" true)) Sample.page
                  {| exn_kind := OtherException;
                     exn_repr := "error('missing ), unterminated subpattern at position 0')" |}
                  eq_refl eq_refl eq_refl eq_refl eq_refl)).
Defined.

(** ** The display: rendering again, and the guarded call *)

Section DisplayMore.

Variable L : Library.

(** X9: given a string, [set_text] never raises, whatever the installed
    transform does: the label ends as the text the transform returns, or as
    the [repr] of what it raised. *)
Theorem set_text_guards_transform (h : string) (d : ScrollDisplay) (f : transform) :
  display_func_transform d = Some f ->
  fst (set_text L (Some h) d) = Done tt
  /\ match f (toPlainText L (rendered L (output_option d) h (label d))) with
     | Returns text => label (snd (set_text L (Some h) d)) = PlainText text
     | Raises repr => label (snd (set_text L (Some h) d)) = PlainText repr
     end.
Proof.
  intros Hf. rewrite set_text_Some. split; [reflexivity|].
  cbn [snd label set_label]. rewrite Hf. cbn [transformed].
  destruct (f _); reflexivity.
Qed.


(** With another output option the label is left alone, so a transform is
    applied to what it produced before. *)
Example set_text_other_option_reapplies :
  let twice (x : string) := Returns (String.append x x) in
  let d := {| output_option := 3; display_func_transform := Some twice; label := PlainText "a" |} in
  label (snd (set_text Sample.lib (Some "h") d)) = PlainText "aa"
  /\ label (snd (set_text Sample.lib (Some "h") (snd (set_text Sample.lib (Some "h") d))))
     = PlainText "aaaa".
Proof. vm_compute. split; reflexivity. Qed.

(** The run of [send_to_display] on an entity that holds a document. *)
Lemma send_to_display_loaded (r : Run) :
  status_code (self r) = 200 ->
  is_Some (resp_html_full (self r)) ->
  exists h,
    send_to_display L r
    = (Done tt,
       {| self := set_display
                    (set_label
                       (transformed L (display_func_transform (display (self r)))
                          (rendered L (output_option (display (self r))) h
                             (label (display (self r)))))
                       (display (self r)))
                    (set_resp_html (Some h) (self r));
          events := events r |})
    /\ requests_extract L r
       = (Done tt, {| self := set_resp_html (Some h) (self r); events := events r |}).
Proof.
  intros H200 Hfull.
  destruct (requests_extract_done L r H200) as (v & Hrun & Hsome & _).
  destruct (Hsome Hfull) as (h & ->). exists h. split; [|assumption].
  unfold send_to_display. mrun. rewrite H200. cbn. rewrite Hrun. cbn.
  rewrite set_text_Some. reflexivity.
Qed.

End DisplayMore.

Lemma set_text_guards_transform_witness :
  label (snd (set_text Sample.lib (Some "h")
                {| output_option := 2;
                   display_func_transform := Some (fun _ => Raises "ZeroDivisionError()");
                   label := PlainText EmptyString |}))
  = PlainText "ZeroDivisionError()".
Proof.
  exact (proj2 (set_text_guards_transform Sample.lib "h"
                  {| output_option := 2;
                     display_func_transform := Some (fun _ => Raises "ZeroDivisionError()");
                     label := PlainText EmptyString |}
                  (fun _ => Raises "ZeroDivisionError()") eq_refl)).
Defined.


(** ** The display options and the filter mode *)

Section OptionsFacts.

Variable L : Library.


(** The fragment does not depend on the display. *)
Lemma requests_extract_ignores_display (d : ScrollDisplay) (e : EntityBox) (evs evs' : list event) :
  resp_html (self (snd (requests_extract L {| self := set_display d e; events := evs |})))
  = resp_html (self (snd (requests_extract L {| self := e; events := evs' |}))).
Proof.
  unfold requests_extract, soup_of, compile_pattern. mrun.
  destruct (status_code e =? 200); cbn; [|reflexivity].
  destruct ((String.length (input_filter e) =? 0)%nat); cbn; [reflexivity|].
  destruct (is_with_css e), (resp_soup e) as [doc|]; cbn;
    try destruct (re_compile L (input_filter e)); reflexivity.
Qed.

(** X12: on an entity that holds a document, choosing a display option
    returns and shows the fragment the filter gives, in that option,
    passed through the transform of the display. *)
Theorem output_option_rerenders (k : Z) (m : M Run unit) (r : Run) :
  In (k, m) [(0, output_html L); (1, output_clean L); (2, output_raw L)] ->
  status_code (self r) = 200 ->
  is_Some (resp_html_full (self r)) ->
  fst (m r) = Done tt
  /\ output_option (display (self (snd (m r)))) = k
  /\ exists h,
       resp_html (self (snd (requests_extract L r))) = Some h
       /\ resp_html (self (snd (m r))) = Some h
       /\ label (display (self (snd (m r))))
          = transformed L (display_func_transform (display (self r)))
              (rendered L k h (label (display (self r)))).
Proof.
  intros Hm H200 Hfull. cbn [In] in Hm. destruct r as [e evs].
  destruct Hm as [[= <- <-]|[[= <- <-]|[[= <- <-]|[]]]];
    unfold output_html, output_clean, output_raw; mrun;
    match goal with
    | |- context [send_to_display L ?s] =>
        destruct (send_to_display_loaded L s H200 Hfull) as (h & -> & Hex)
    end; cbn; (split; [reflexivity|]); (split; [reflexivity|]);
    exists h; (split; [|split; reflexivity]);
    match type of Hex with
    | requests_extract L {| self := set_display ?d _; events := _ |} = _ =>
        rewrite <- (requests_extract_ignores_display d e evs evs), Hex
    end; reflexivity.
Qed.

End OptionsFacts.


Lemma output_option_rerenders_witness :
  output_option
    (display (self (snd (output_raw Sample.lib (Sample.start (Sample.loaded "a" true))))))
  = 2.
Proof.
  exact (proj1 (proj2 (output_option_rerenders Sample.lib 2 (output_raw Sample.lib)
                         (Sample.start (Sample.loaded "a" true))
                         (or_intror (or_intror (or_introl eq_refl)))
                         eq_refl (ex_intro _ _ eq_refl)))).
Defined.

(** ** Switching the transform on and off *)

Section TransformMore.

Variable L : Library.

(** X13: switching the transform off always returns; and when
    [enable_transform] returns, for either value, [is_with_transform] and
    the visibility of the transform row are what was asked for, and the
    entity holds a compiled transform exactly when the transform is on. *)
Theorem enable_transform_sets_flag_and_function (enable : bool) (r : Run) :
  fst (enable_transform L false r) = Done tt
  /\ (fst (enable_transform L enable r) = Done tt ->
      let e' := self (snd (enable_transform L enable r)) in
      is_with_transform e' = enable
      /\ transform_row_visible e' = enable
      /\ (if enable then is_Some (func_transform e') else func_transform e' = None)).
Proof.
  split; [unfold enable_transform; mrun; reflexivity|].
  destruct enable; unfold enable_transform; mrun; [|intros _; repeat split; reflexivity].
  rewrite get_from_input_and_set_transform_run. cbn.
  destruct (compiled L _ _) as [ex|f]; [destruct (is_Exception ex)|]; cbn.
  - intros _. repeat split. eexists; reflexivity.
  - discriminate.
  - match goal with
    | |- context [send_to_display L ?s] =>
        destruct (send_to_display_shape L s) as (v & lbl & Hs);
        destruct (send_to_display L s) as [[[]|ex] s']
    end; cbn in Hs; subst s'; cbn.
    + intros _. repeat split. eexists; reflexivity.
    + destruct (is_Exception ex); cbn; [|discriminate].
      intros _. repeat split. eexists; reflexivity.
Qed.

(** X14: [requests_get] keeps the agreement between the flag and the
    function: if [is_with_transform] holds exactly when a compiled
    transform is set before the fetch, so it does after it. *)
Theorem requests_get_keeps_transform_agreement (r : Run) :
  (is_with_transform (self r) = true <-> is_Some (func_transform (self r))) ->
  let e' := self (snd (requests_get L r)) in
  is_with_transform e' = true <-> is_Some (func_transform e').
Proof.
  intros Hagree e'. subst e'.
  destruct (fetch_succeeds L (input_url (self r))) eqn:Hfetch.
  - apply fetch_succeeds_true in Hfetch as (Hm & resp & Hresp & H200).
    destruct (requests_get_success L r resp Hm Hresp H200)
      as (_ & _ & _ & _ & _ & _ & -> & -> & _).
    split; [discriminate | intros [f Hf]; discriminate].
  - destruct (requests_get_failure_run L r Hfetch) as (msg & ->). exact Hagree.
Qed.

(** X15: on an entity that holds a document, a source that compiles is
    installed on the entity and on the display, and the label shows the
    fragment in the current option passed through the new function. *)
Theorem get_from_input_and_set_transform_installs (r : Run) (f : transform) :
  compiled L (self_id (self r)) (str_strip L (input_transform (self r))) = inr f ->
  status_code (self r) = 200 ->
  is_Some (resp_html_full (self r)) ->
  let res := get_from_input_and_set_transform L r in
  fst res = Done tt
  /\ func_transform (self (snd res)) = Some f
  /\ display_func_transform (display (self (snd res))) = Some f
  /\ exists h,
       resp_html (self (snd res)) = Some h
       /\ label (display (self (snd res)))
          = transformed L (Some f)
              (rendered L (output_option (display (self r))) h (label (display (self r)))).
Proof.
  intros Hc H200 Hfull res. subst res.
  rewrite get_from_input_and_set_transform_run. cbn zeta. rewrite Hc.
  match goal with
  | |- context [send_to_display L ?s] =>
      destruct (send_to_display_loaded L s H200 Hfull) as (h & -> & _)
  end. cbn.
  repeat split. exists h. split; reflexivity.
Qed.

End TransformMore.

Lemma enable_transform_sets_flag_and_function_witness :
  is_with_transform
    (self (snd (enable_transform Sample.lib true
                  (Sample.start (Sample.entity "https://" EmptyString "bad code")))))
  = true.
Proof.
  exact (proj1 (proj2 (enable_transform_sets_flag_and_function Sample.lib true
                         (Sample.start (Sample.entity "https://" EmptyString "bad code")))
                  eq_refl)).
Defined.

Lemma requests_get_keeps_transform_agreement_witness :
  let e' := self (snd (requests_get Sample.lib
                         (Sample.start (Sample.entity Sample.page_url EmptyString EmptyString)))) in
  is_with_transform e' = true <-> is_Some (func_transform e').
Proof.
  apply (requests_get_keeps_transform_agreement Sample.lib
           (Sample.start (Sample.entity Sample.page_url EmptyString EmptyString))).
  cbn. split; [discriminate | intros [f Hf]; discriminate].
Defined.

Lemma get_from_input_and_set_transform_installs_witness :
  let src := "def f(x):" ++ PyStr.LF ++ "    return x.upper()" in
  let e := set_input_transform src
             (set_display (set_output_option 2 ScrollDisplay_init)
                (Sample.loaded EmptyString true)) in
  fst (get_from_input_and_set_transform Sample.lib (Sample.start e)) = Done tt.
Proof.
  exact (proj1 (get_from_input_and_set_transform_installs Sample.lib
                  (Sample.start
                     (set_input_transform ("def f(x):" ++ PyStr.LF ++ "    return x.upper()")
                        (set_display (set_output_option 2 ScrollDisplay_init)
                           (Sample.loaded EmptyString true))))
                  (fun x => Returns (string_of_list_ascii
                                       (map Sample.upper (list_ascii_of_string x))))
                  eq_refl eq_refl (ex_intro _ _ eq_refl))).
Defined.

(** ** The collection of entities *)

Section WindowFacts.

Variable L : Library.

Lemma requests_of_app (a b : list event) :
  requests_of (a ++ b) = (requests_of a ++ requests_of b)%list.
Proof.
  induction a as [|[msg|url] a IH]; cbn; [reflexivity | exact IH | rewrite IH; reflexivity].
Qed.

(** X16: removing a display right after adding one gives back the
    collection as it was. *)
Theorem rmv_display_undoes_add_display (w : MainWindow) :
  fst (rmv_display (snd (add_display w))) = Done tt
  /\ list_entity_box (snd (rmv_display (snd (add_display w)))) = list_entity_box w.
Proof.
  unfold add_display, window_set_status. munfold. cbn [snd].
  rewrite rmv_display_some.
  - cbn [fst snd list_entity_box]. split; [reflexivity | apply removelast_last].
  - cbn [list_entity_box]. rewrite length_app. cbn. lia.
Qed.

Lemma repeat_rmv_display_log (n : nat) :
  forall w,
    length (list_entity_box w) = n ->
    repeatM n rmv_display w
    = (Done tt,
       {| list_entity_box := [];
          status_bar := status_bar w ++ repeat (Status "Removed bottom most widget") n;
          next_id := next_id w |}).
Proof.
  induction n as [|n IH]; intros w Hlen.
  - apply nil_length_inv in Hlen. destruct w as [boxes bar nid]. cbn in *. subst boxes.
    rewrite app_nil_r. reflexivity.
  - cbn [repeatM]. munfold. rewrite rmv_display_some by lia.
    rewrite IH.
    + cbn [list_entity_box status_bar next_id]. rewrite <- List.app_assoc. reflexivity.
    + cbn [list_entity_box]. rewrite removelast_firstn_len, length_take, Hlen. lia.
Qed.

(** X17: [rmv_all_display] returns with an empty collection, after one
    message per entity removed and a closing message; on an empty
    collection the closing message is all it does. *)
Theorem rmv_all_display_log (w : MainWindow) :
  rmv_all_display w
  = (Done tt,
     {| list_entity_box := [];
        status_bar := status_bar w
                      ++ repeat (Status "Removed bottom most widget")
                           (length (list_entity_box w))
                      ++ [Status "Removed all widgets"];
        next_id := next_id w |}).
Proof.
  unfold rmv_all_display. munfold. rewrite repeat_rmv_display_log by reflexivity.
  unfold window_set_status. munfold. cbn [list_entity_box status_bar next_id].
  rewrite <- List.app_assoc. reflexivity.
Qed.




End WindowFacts.



(** The two entities of the fixture: one request each, the first is
    answered with the page and the second with status 404. *)
Example fetch_all_fixture :
  let w' := snd (fetch_all Sample.lib Fixture.window) in
  requests_of (status_bar w') = [Sample.page_url; "https://example.test/missing"]
  /\ map status_code (list_entity_box w') = [200; -1].
Proof. vm_compute. split; reflexivity. Qed.

(** ** [FormRadioButtons.new] *)

(** X19: for at least one name, [FormRadioButtons.new] returns one button
    per name, in order, with the first one checked and no other; for no
    name it raises. *)
Theorem FormRadioButtons_new_checks_first (button_names : list string) :
  match button_names with
  | [] => exists ex, FormRadioButtons_new button_names = Raise ex
  | first :: others =>
      exists btns,
        FormRadioButtons_new button_names = Done btns
        /\ map rb_text btns = button_names
        /\ map rb_checked btns = true :: map (fun _ => false) others
  end.
Proof.
  destruct button_names as [|first others]; cbn.
  - eexists. reflexivity.
  - eexists. split; [reflexivity|]. cbn. split.
    + f_equal. induction others as [|x l IH]; cbn; [reflexivity | rewrite IH; reflexivity].
    + f_equal. induction others as [|x l IH]; cbn; [reflexivity | rewrite IH; reflexivity].
Qed.

(** ** The pattern matcher and [URL_RE] *)

Section MatcherFacts.

Lemma Lang_Fail (s : string) : ~ Lang Re.Fail s.
Proof. intros H. inversion H. Qed.

Lemma Lang_Eps (s : string) : Lang Re.Eps s <-> s = EmptyString.
Proof. split; [intros H; inversion H; reflexivity | intros ->; constructor]. Qed.

Lemma Lang_Class (p : ascii -> bool) (s : string) :
  Lang (Re.Class p) s <-> exists c, s = String c EmptyString /\ p c = true.
Proof.
  split.
  - intros H. inversion H; subst. eauto.
  - intros (c & -> & Hc). constructor. assumption.
Qed.

Lemma Lang_Cat (r1 r2 : Re.regex) (s : string) :
  Lang (Re.Cat r1 r2) s
  <-> exists s1 s2, s = String.append s1 s2 /\ Lang r1 s1 /\ Lang r2 s2.
Proof.
  split.
  - intros H. inversion H; subst. eauto.
  - intros (s1 & s2 & -> & H1 & H2). constructor; assumption.
Qed.

Lemma Lang_Alt (r1 r2 : Re.regex) (s : string) :
  Lang (Re.Alt r1 r2) s <-> Lang r1 s \/ Lang r2 s.
Proof.
  split.
  - intros H. inversion H; subst; auto.
  - intros [H|H]; [apply Lang_alt_l | apply Lang_alt_r]; assumption.
Qed.

Lemma append_eq_empty (a b : string) :
  String.append a b = EmptyString -> a = EmptyString /\ b = EmptyString.
Proof. destruct a; [auto | discriminate]. Qed.

Lemma nullable_spec (r : Re.regex) : Re.nullable r = true <-> Lang r EmptyString.
Proof.
  induction r as [| |p|r1 IH1 r2 IH2|r1 IH1 r2 IH2|r IH]; cbn.
  - split; [discriminate | intros H; inversion H].
  - split; [constructor | reflexivity].
  - split; [discriminate | intros H; inversion H].
  - rewrite andb_true_iff, IH1, IH2, Lang_Cat. split.
    + intros [H1 H2]. exists EmptyString, EmptyString. auto.
    + intros (s1 & s2 & Heq & H1 & H2). symmetry in Heq.
      apply append_eq_empty in Heq as [-> ->]. auto.
  - rewrite orb_true_iff, IH1, IH2, Lang_Alt. reflexivity.
  - split; [constructor | reflexivity].
Qed.

Lemma Lang_smart_cat (r1 r2 : Re.regex) (s : string) :
  Lang (Re.cat r1 r2) s <-> Lang (Re.Cat r1 r2) s.
Proof.
  rewrite Lang_Cat.
  destruct r1; cbn;
    try (destruct r2; cbn; rewrite ?Lang_Cat; try reflexivity;
         split; [intros H; inversion H | intros (s1 & s2 & _ & _ & H); inversion H]).
  - split; [intros H; inversion H | intros (s1 & s2 & _ & H & _); inversion H].
  - destruct r2; cbn.
    + split; [intros H; inversion H | intros (s1 & s2 & _ & _ & H); inversion H].
    + split.
      * intros H. exists EmptyString, s. split; [reflexivity|]. split; [constructor | assumption].
      * intros (s1 & s2 & -> & H1 & H2). inversion H1. assumption.
    + split.
      * intros H. exists EmptyString, s. split; [reflexivity|]. split; [constructor | assumption].
      * intros (s1 & s2 & -> & H1 & H2). inversion H1. assumption.
    + split.
      * intros H. exists EmptyString, s. split; [reflexivity|]. split; [constructor | assumption].
      * intros (s1 & s2 & -> & H1 & H2). inversion H1. assumption.
    + split.
      * intros H. exists EmptyString, s. split; [reflexivity|]. split; [constructor | assumption].
      * intros (s1 & s2 & -> & H1 & H2). inversion H1. assumption.
    + split.
      * intros H. exists EmptyString, s. split; [reflexivity|]. split; [constructor | assumption].
      * intros (s1 & s2 & -> & H1 & H2). inversion H1. assumption.
Qed.

Lemma Lang_smart_alt (r1 r2 : Re.regex) (s : string) :
  Lang (Re.alt r1 r2) s <-> Lang r1 s \/ Lang r2 s.
Proof.
  destruct r1; cbn;
    try (destruct r2; cbn; rewrite ?Lang_Alt; try reflexivity;
         split; [auto | intros [H|H]; [assumption | inversion H]]).
  split; [auto | intros [H|H]; [inversion H | assumption]].
Qed.

(** The strings of [Star r] that begin with [c] begin with a string of
    [r] that begins with [c]. *)
Lemma Lang_Star_cons (r : Re.regex) (c : ascii) (s : string) :
  Lang (Re.Star r) (String c s)
  <-> exists s1 s2, s = String.append s1 s2 /\ Lang r (String c s1) /\ Lang (Re.Star r) s2.
Proof.
  split.
  - intros H. remember (Re.Star r) as r' eqn:Hr. remember (String c s) as t eqn:Ht.
    revert s Ht. induction H as [| | | | | |r0 s1 s2 H1 _ H2 IH2]; try discriminate.
    injection Hr as ->. intros s Ht. destruct s1 as [|d s1].
    + apply IH2; [reflexivity | exact Ht].
    + injection Ht as -> <-. exists s1, s2. auto.
  - intros (s1 & s2 & -> & H1 & H2).
    change (String c (String.append s1 s2)) with (String.append (String c s1) s2).
    constructor; assumption.
Qed.

(** The derivative is the pattern of the rests after one character. *)
Lemma deriv_spec (c : ascii) (r : Re.regex) :
  forall s, Lang (Re.deriv c r) s <-> Lang r (String c s).
Proof.
  induction r as [| |p|r1 IH1 r2 IH2|r1 IH1 r2 IH2|r IH]; intros s; cbn [Re.deriv].
  - split; intros H; inversion H.
  - split; intros H; inversion H.
  - rewrite Lang_Class. destruct (p c) eqn:Hp.
    + rewrite Lang_Eps. split.
      * intros ->. exists c. auto.
      * intros (d & Heq & _). injection Heq as _ ->. reflexivity.
    + split; [intros H; inversion H|].
      intros (d & Heq & Hd). injection Heq as -> _. congruence.
  - rewrite Lang_smart_alt, Lang_smart_cat, !Lang_Cat. split.
    + intros [(s1 & s2 & -> & H1 & H2)|H].
      * exists (String c s1), s2. split; [reflexivity|]. split; [apply IH1|]; assumption.
      * destruct (Re.nullable r1) eqn:Hn; [|inversion H].
        exists EmptyString, (String c s). split; [reflexivity|].
        split; [apply nullable_spec | apply IH2]; assumption.
    + intros (s1 & s2 & Heq & H1 & H2). destruct s1 as [|d s1].
      * right. change (String.append EmptyString s2) with s2 in Heq. subst s2.
        apply nullable_spec in H1. rewrite H1. apply IH2. assumption.
      * left. rewrite append_cons in Heq. injection Heq as <- ->.
        exists s1, s2. split; [reflexivity|]. split; [apply IH1|]; assumption.
  - rewrite Lang_smart_alt, IH1, IH2, Lang_Alt. reflexivity.
  - rewrite Lang_smart_cat, Lang_Cat, Lang_Star_cons. split.
    + intros (s1 & s2 & -> & H1 & H2). exists s1, s2. rewrite <- IH. auto.
    + intros (s1 & s2 & -> & H1 & H2). exists s1, s2. rewrite IH. auto.
Qed.

(** [Re.matches] holds exactly when a prefix of the string is matched in
    full. *)
Lemma matches_spec (s : string) :
  forall r,
    Re.matches r s = true <-> exists s1 s2, s = String.append s1 s2 /\ Lang r s1.
Proof.
  induction s as [|c s IH]; intros r; cbn [Re.matches]; rewrite orb_true_iff, nullable_spec.
  - split.
    + intros [H|H]; [|discriminate]. exists EmptyString, EmptyString. auto.
    + intros (s1 & s2 & Heq & H). symmetry in Heq.
      apply append_eq_empty in Heq as [-> _]. auto.
  - rewrite IH. split.
    + intros [H|(s1 & s2 & -> & H)].
      * exists EmptyString, (String c s). auto.
      * exists (String c s1), s2. split; [reflexivity | apply deriv_spec; assumption].
    + intros (s1 & s2 & Heq & H). destruct s1 as [|d s1]; [auto|].
      rewrite append_cons in Heq. injection Heq as <- ->.
      right. exists s1, s2. split; [reflexivity | apply deriv_spec; assumption].
Qed.

End MatcherFacts.

Section UrlFacts.

Lemma Lang_Lit (x s : string) : Lang (Re.Lit x) s <-> s = x.
Proof.
  revert s. induction x as [|c x IH]; intros s; cbn [Re.Lit].
  - apply Lang_Eps.
  - unfold Re.Chr. rewrite Lang_Cat. split.
    + intros (s1 & s2 & -> & H1 & H2). apply Lang_Class in H1 as (d & -> & Hd).
      apply Ascii.eqb_eq in Hd. subst d. apply IH in H2. subst s2. reflexivity.
    + intros ->. exists (String c EmptyString), x. split; [reflexivity|].
      split; [|apply IH; reflexivity].
      apply Lang_Class. exists c. split; [reflexivity | apply Ascii.eqb_refl].
Qed.

(** A string of [[p]+] begins with a character of [p]. *)
Lemma Lang_Plus_Class (p : ascii -> bool) (s : string) :
  Lang (Re.Plus (Re.Class p)) s -> exists c rest, s = String c rest /\ p c = true.
Proof.
  unfold Re.Plus. rewrite Lang_Cat. intros (s1 & s2 & -> & H1 & _).
  apply Lang_Class in H1 as (c & -> & Hc). exists c, s2. auto.
Qed.

Lemma word_is_not_space (c : ascii) : Re.word c = true -> PyStr.is_space c = false.
Proof.
  destruct c as [[] [] [] [] [] [] [] []]; vm_compute; intros H;
    first [reflexivity | discriminate].
Qed.

(** What the pattern accepts, with its classes as [Re] has them. *)
Lemma URL_RE_matches_shape (s : string) :
  Re.matches URL_RE s = true
  <-> exists scheme c rest,
        In scheme ["ftp"; "http"; "https"]
        /\ s = String.append scheme (String.append "://" (String c rest))
        /\ PyStr.is_space c = false.
Proof.
  rewrite matches_spec. unfold URL_RE. cbv zeta. split.
  - intros (s1 & s2 & -> & H).
    apply Lang_Cat in H as (a & b & -> & Ha & Hb).
    apply Lang_Cat in Hb as (sep & b2 & -> & Hsep & Hb2).
    apply Lang_Lit in Hsep. subst sep.
    apply Lang_Cat in Hb2 as (cr & b3 & -> & Hcr & Hb3).
    apply Lang_Cat in Hb3 as (n1 & t & -> & Hn1 & _).
    apply Lang_Plus_Class in Hn1 as (c' & n1' & -> & Hc').
    assert (Hscheme : In a ["ftp"; "http"; "https"]).
    { apply Lang_Alt in Ha as [Ha|Ha]; [apply Lang_Lit in Ha; subst; cbn; auto|].
      apply Lang_Alt in Ha as [Ha|Ha]; apply Lang_Lit in Ha; subst; cbn; auto. }
    exists a. unfold Re.Opt in Hcr. apply Lang_Alt in Hcr as [Hcr|Hcr].
    + apply Lang_Cat in Hcr as (w & w' & -> & Hw & _).
      apply Lang_Plus_Class in Hw as (c & wr & -> & Hc).
      exists c. eexists. split; [assumption|]. split.
      * rewrite !append_assoc, !append_cons. reflexivity.
      * apply word_is_not_space. assumption.
    + apply Lang_Eps in Hcr. subst cr.
      exists c'. eexists. split; [assumption|]. split.
      * rewrite !append_assoc.
        change (String.append EmptyString ?x) with x. rewrite !append_cons. reflexivity.
      * unfold Re.nonspace in Hc'. apply negb_true_iff in Hc'. assumption.
  - intros (scheme & c & rest & Hscheme & -> & Hc).
    exists (String.append scheme (String.append "://" (String c EmptyString))), rest.
    split.
    { rewrite !append_assoc. reflexivity. }
    apply Lang_Cat. exists scheme. eexists. split; [reflexivity|]. split.
    + cbn [In] in Hscheme. destruct Hscheme as [<-|[<-|[<-|[]]]].
      * apply Lang_alt_l, Lang_Lit. reflexivity.
      * apply Lang_alt_r, Lang_alt_l, Lang_Lit. reflexivity.
      * apply Lang_alt_r, Lang_alt_r, Lang_Lit. reflexivity.
    + apply Lang_Cat. exists "://", (String c EmptyString).
      split; [reflexivity|]. split; [apply Lang_Lit; reflexivity|].
      apply Lang_Cat. exists EmptyString, (String c EmptyString).
      split; [reflexivity|]. split; [apply Lang_alt_r; constructor|].
      apply Lang_Cat. exists (String c EmptyString), EmptyString.
      split; [reflexivity|]. split.
      * unfold Re.Plus. apply Lang_Cat. exists (String c EmptyString), EmptyString.
        split; [reflexivity|]. split; [|constructor].
        apply Lang_Class. exists c. split; [reflexivity|].
        unfold Re.nonspace. rewrite Hc. reflexivity.
      * apply Lang_Cat. exists EmptyString, EmptyString.
        split; [reflexivity|]. split; apply Lang_alt_r; constructor.
Qed.

(** X20: of the strings of ASCII characters, [URL_RE.match] accepts
    exactly those that begin with [ftp://], [http://] or [https://]
    followed by one character that is not white space; what comes after
    is not looked at. *)
Theorem URL_RE_matches_iff (s : string) :
  is_ascii s = true ->
  (Re.matches URL_RE s = true
   <-> exists scheme c rest,
         In scheme ["ftp"; "http"; "https"]
         /\ s = String.append scheme (String.append "://" (String c rest))
         /\ PyStr.is_space c = false).
Proof. intros _. apply URL_RE_matches_shape. Qed.

End UrlFacts.

Lemma URL_RE_matches_iff_witness :
  Re.matches URL_RE "http://? not a host" = true
  <-> exists scheme c rest,
        In scheme ["ftp"; "http"; "https"]
        /\ "http://? not a host" = String.append scheme (String.append "://" (String c rest))
        /\ PyStr.is_space c = false.
Proof. exact (URL_RE_matches_iff "http://? not a host" eq_refl). Defined.

(** A host is not needed, and white space may follow the first character. *)
Example url_with_blanks_accepted : Re.matches URL_RE "http://? not a host" = true.
Proof. vm_compute. reflexivity. Qed.

(** ** [CLEAN_TEXT], continued *)

Section CleanFacts.

Lemma re_sub_clean_runs_twice (s : string) :
  forall b,
    re_sub_runs clean_class PyStr.LF b (re_sub_runs clean_class PyStr.LF b s)
    = re_sub_runs clean_class PyStr.LF b s.
Proof.
  induction s as [|c s IH]; intros b; [reflexivity|].
  destruct (clean_class c) eqn:Hc.
  - destruct b.
    + rewrite re_sub_runs_inside by assumption. apply IH.
    + rewrite re_sub_runs_start by assumption.
      change (String.append PyStr.LF ?x) with (String (ascii_of_nat 10) x).
      rewrite re_sub_runs_start by reflexivity.
      change (String.append PyStr.LF ?x) with (String (ascii_of_nat 10) x).
      f_equal. apply IH.
  - rewrite !re_sub_runs_other by assumption. f_equal. apply IH.
Qed.

(** X21: cleaning a cleaned text changes nothing. *)
Theorem re_sub_clean_idempotent (s : string) :
  re_sub_clean (re_sub_clean s) = re_sub_clean s.
Proof. apply re_sub_clean_runs_twice. Qed.

Lemma re_sub_runs_only_line_feeds (s : string) :
  forall b,
    forallb (fun c => negb (clean_class c) || Ascii.eqb c (ascii_of_nat 10))
      (list_ascii_of_string (re_sub_runs clean_class PyStr.LF b s)) = true.
Proof.
  induction s as [|c s IH]; intros b; [reflexivity|].
  destruct (clean_class c) eqn:Hc.
  - destruct b.
    + rewrite re_sub_runs_inside by assumption. apply IH.
    + rewrite re_sub_runs_start by assumption.
      change (String.append PyStr.LF ?x) with (String (ascii_of_nat 10) x).
      cbn [list_ascii_of_string forallb]. rewrite IH. reflexivity.
  - rewrite re_sub_runs_other by assumption.
    cbn [list_ascii_of_string forallb]. rewrite Hc, IH. reflexivity.
Qed.

(** X22: a cleaned text holds no space and no vertical bar: of the three
    characters of the class only the line feed is left. *)
Theorem re_sub_clean_leaves_no_blank (s : string) :
  forallb (fun c => negb (Ascii.eqb c " ") && negb (Ascii.eqb c "|"))
    (list_ascii_of_string (re_sub_clean s)) = true.
Proof.
  pose proof (re_sub_runs_only_line_feeds s false) as H. unfold re_sub_clean.
  revert H. generalize (list_ascii_of_string (re_sub_runs clean_class PyStr.LF false s)).
  intros l. induction l as [|c l IH]; [reflexivity|].
  cbn [forallb]. intros H. apply andb_true_iff in H as [Hc Hl].
  rewrite (IH Hl), andb_true_r. unfold clean_class in Hc.
  destruct (Ascii.eqb c " ") eqn:Hs.
  - apply Ascii.eqb_eq in Hs. subst c. discriminate.
  - destruct (Ascii.eqb c "|") eqn:Hb; [|reflexivity].
    apply Ascii.eqb_eq in Hb. subst c. discriminate.
Qed.

End CleanFacts.

(** ** Records with missing keys *)

Section MissingKeys.

Variable L : Library.

Lemma requests_of_status (evs : list event) (msg : string) :
  requests_of (evs ++ [Status msg]) = requests_of evs.
Proof. rewrite requests_of_app. cbn. apply app_nil_r. Qed.

(** X23: a record without the key [url] loads the empty URL into a new
    entity and sends no request, whatever its other keys hold. *)
Theorem from_config_without_url (cfg : gmap string cfg_value) (id : N) (evs : list event) :
  cfg !! "url" = None ->
  let res := from_config L cfg {| self := EntityBox_init id; events := evs |} in
  input_url (self (snd res)) = EmptyString
  /\ requests_of (events (snd res)) = requests_of evs.
Proof.
  intros Hurl res. subst res.
  unfold from_config, input_filter_setText, input_transform_setPlainText, cfg_get.
  rewrite Hurl. cbn [default cfg_str]. mrun.
  destruct (cfg_str _) as [flt|]; mrun; [|auto].
  destruct flt as [|c flt]; mrun.
  2: rewrite send_to_display_unfetched by (cbn; discriminate); mrun.
  all: destruct (cfg_str _) as [src|]; mrun; [|auto].
  all: match goal with
       | |- context [requests_get L ?s] =>
           destruct (requests_get_failure_run L s eq_refl) as (msg & ->)
       end; cbn.
  all: destruct (cfg_truthy _); cbn; [|split; [reflexivity | apply requests_of_status]].
  all: rewrite get_from_input_and_set_transform_run; cbn.
  all: destruct (compiled L _ _) as [ex|f]; [destruct (is_Exception ex)|]; cbn.
  all: try rewrite send_to_display_unfetched by (cbn; discriminate); cbn.
  all: split; [reflexivity|].
  all: rewrite ?requests_of_app; cbn; try destruct (shape_ok _); cbn;
    rewrite ?app_nil_r; reflexivity.
Qed.

End MissingKeys.

Lemma from_config_without_url_witness :
  input_url
    (self (snd (from_config Sample.lib (<["filter" := VStr "a"]> ∅)
                  (Sample.start (EntityBox_init 3)))))
  = EmptyString.
Proof.
  exact (proj1 (from_config_without_url Sample.lib (<["filter" := VStr "a"]> ∅) 3 [] eq_refl)).
Defined.

(** ** Loading what [save_config] wrote *)

Section SavedCollection.

Variable L : Library.

(** The configuration [e'] was loaded from the record of [e]. *)
Let loaded_from (e e' : EntityBox) : Prop :=
  input_url e' = input_url e
  /\ input_filter e' = input_filter e
  /\ is_with_css e' = is_with_css e
  /\ output_option (display e') = output_option (display e).

(** One record loaded into a new entity: the four fields are those of the
    entity saved, and only an exception outside [Exception] can leave. *)
Lemma from_config_of_saved (e : EntityBox) (id : N) (evs : list event) :
  let res := from_config L (to_config e) {| self := EntityBox_init id; events := evs |} in
  loaded_from e (self (snd res))
  /\ (forall ex, fst res = Raise ex -> is_Exception ex = false).
Proof.
  intros res. subst res. unfold loaded_from.
  destruct (from_config_staged L e id evs)
    as (e1 & -> & Hst & Hurl & Hflt & Hcss & Hopt & _ & _).
  rewrite <- Hurl, <- Hflt, <- Hcss, <- Hopt. clear Hurl Hflt Hcss Hopt.
  munfold.
  destruct (fetch_succeeds L (input_url e1)) eqn:Hfetch.
  - apply fetch_succeeds_true in Hfetch as (Hm & resp & Hresp & H200).
    destruct (requests_get_success L {| self := e1; events := evs |} resp Hm Hresp H200)
      as (Hdone & _ & _ & _ & _ & _ & Hoff & _ & _ & _ & Hu & Hf & Hc & Ho & _).
    cbn [self] in *.
    destruct (requests_get L {| self := e1; events := evs |}) as [o s'].
    cbn [fst snd] in *. subst o. mrun. rewrite Hoff. cbn.
    repeat split; try assumption. discriminate.
  - destruct (requests_get_failure_run L {| self := e1; events := evs |} Hfetch)
      as (msg & ->).
    mrun. destruct (is_with_transform e1) eqn:Hw; cbn;
      [|repeat split; cbn; try reflexivity; discriminate].
    unfold enable_transform. mrun.
    rewrite get_from_input_and_set_transform_run. cbn.
    destruct (compiled L _ _) as [ex|f]; [destruct (is_Exception ex) eqn:Hex|]; cbn.
    + repeat split; cbn; try reflexivity; discriminate.
    + repeat split; cbn; try reflexivity. intros ex' [= <-]. assumption.
    + rewrite send_to_display_unfetched by (cbn; rewrite Hst; discriminate). cbn.
      repeat split; cbn; try reflexivity; discriminate.
Qed.

(** One turn of the loop of [load_config]. *)
Lemma load_one_record (e : EntityBox) (key : string) (w : MainWindow) :
  exists o e' bar',
    (add_display;; on_last_entity (from_config L (to_config e))) w
    = (o, {| list_entity_box := list_entity_box w ++ [e'];
             status_bar := bar';
             next_id := N.succ (next_id w) |})
    /\ loaded_from e e'
    /\ (forall ex, o = Raise ex -> is_Exception ex = false).
Proof.
  unfold add_display, window_set_status, on_last_entity. munfold.
  cbn [list_entity_box status_bar next_id]. rewrite last_snoc.
  destruct (from_config_of_saved e (next_id w) (status_bar w ++ [Status "Added new widget"]))
    as (Hcfg & Hraise).
  destruct (from_config L (to_config e) _) as [o r'].
  cbn [fst snd] in *. rewrite removelast_last.
  exists o, (self r'), (events r'). auto.
Qed.

Lemma load_records (boxes : list EntityBox) :
  forall idx w,
    exists o news bar' nid',
      for_each (global_cfg_from idx boxes)
        (fun kv => add_display;; on_last_entity (from_config L (snd kv))) w
      = (o, {| list_entity_box := list_entity_box w ++ news;
               status_bar := bar';
               next_id := nid' |})
      /\ (o = Done tt -> Forall2 loaded_from boxes news)
      /\ (forall ex, o = Raise ex -> is_Exception ex = false).
Proof.
  induction boxes as [|e boxes IH]; intros idx w; cbn [global_cfg_from for_each].
  - exists (Done tt), [], (status_bar w), (next_id w).
    rewrite app_nil_r. destruct w. split; [reflexivity|]. split; [constructor | discriminate].
  - unfold mbind at 1, M_bind at 1. cbn [snd].
    destruct (load_one_record e (pretty idx) w) as (o & e' & bar' & -> & Hcfg & Hraise).
    destruct o as [[]|ex].
    + destruct (IH (S idx) {| list_entity_box := list_entity_box w ++ [e'];
                              status_bar := bar';
                              next_id := N.succ (next_id w) |})
        as (o & news & bar'' & nid' & -> & Hdone & Hraise').
      cbn [list_entity_box]. exists o, (e' :: news), bar'', nid'.
      rewrite <- List.app_assoc. split; [reflexivity|]. split; [|assumption].
      intros Ho. constructor; [assumption | auto].
    + exists (Raise ex), [e'], bar', (N.succ (next_id w)).
      split; [reflexivity|]. split; [discriminate | assumption].
Qed.

Lemma not_Exception_not_FileNotFoundError (ex : exn) :
  is_Exception ex = false -> is_FileNotFoundError ex = false.
Proof. destruct ex as [[] repr]; cbn; congruence. Qed.

(** X24: when the file holds what [save_config] wrote for a collection
    and the loader returns, the new collection has one entity per entity
    saved, in the same order, each with the URL, the filter, the filter
    mode and the output option of the one it was saved from. *)
Theorem load_config_of_saved (boxes : list EntityBox) (content : string) (w : MainWindow) :
  json_load L content = Some (global_cfg boxes) ->
  fst (load_config L (Some content) w) = Done tt ->
  Forall2
    (fun e e' =>
       input_url e' = input_url e
       /\ input_filter e' = input_filter e
       /\ is_with_css e' = is_with_css e
       /\ output_option (display e') = output_option (display e))
    boxes (list_entity_box (snd (load_config L (Some content) w))).
Proof.
  intros Hjson. unfold load_config. munfold.
  destruct (rmv_all_display_empties w) as (evs & ->).
  unfold open_config, read_local, window_set_status. munfold. rewrite Hjson.
  cbn [fst snd]. unfold global_cfg.
  match goal with
  | |- context [for_each _ _ ?w0] =>
      destruct (load_records boxes 0%nat w0) as (o & news & bar' & nid' & Hrun & Hdone & Hraise)
  end.
  unfold mbind, M_bind in Hrun. rewrite Hrun. clear Hrun.
  destruct o as [[]|ex]; cbn.
  - intros _. apply Hdone. reflexivity.
  - rewrite (not_Exception_not_FileNotFoundError ex (Hraise ex eq_refl)). discriminate.
Qed.

End SavedCollection.

Lemma load_config_of_saved_witness :
  Forall2
    (fun e e' =>
       input_url e' = input_url e
       /\ input_filter e' = input_filter e
       /\ is_with_css e' = is_with_css e
       /\ output_option (display e') = output_option (display e))
    Fixture.boxes
    (list_entity_box (snd (load_config Fixture.saved (Some "saved") Sample.window))).
Proof.
  apply (load_config_of_saved Fixture.saved Fixture.boxes "saved" Sample.window).
  - reflexivity.
  - vm_compute. reflexivity.
Defined.

(** The fixture loaded: two entities, the first fetched, the second not. *)
Example load_config_fixture :
  let w' := snd (load_config Fixture.saved (Some "saved") Sample.window) in
  map input_url (list_entity_box w') = [Sample.page_url; "https://example.test/missing"]
  /\ map status_code (list_entity_box w') = [200; -1]
  /\ map self_id (list_entity_box w') = [1%N; 2%N].
Proof. vm_compute. repeat split. Qed.
